(** * Modbus-TCP clock server: a shallow embedding of [modbus_clock_server.py]

    The protocol engine of the server is embedded function by function:
    [recv_exact], [read_clock_registers], [build_exception_response],
    [build_fc3_response], [parse_mbap_header] and [handle_client].

    - Python integers are [Z]; [&] and [|] are [Z.land] and [Z.lor].
    - [bytes] values are [list byte] over the 256-constructor type of the
      Standard Library, so that a decoded byte is in range by construction.
    - Exceptions are explicit: a computation either returns, raises, or (for
      the two [while] loops, which recurse on a step budget) runs out of
      budget; the theorems show the budget is never the limit.
    - The socket and the system clock are a [world] threaded through a small
      state-and-exception monad. Logging is observational and is left out;
      writes to the socket are taken to succeed. *)

From Stdlib Require Import Ascii String ZArith List Bool Lia.
From Stdlib Require Import Strings.Byte.
Import ListNotations.
Open Scope Z_scope.

(* ------------------------------------------------------------------ *)
(** ** Exceptions and results *)

Inductive exn : Type :=
| ConnectionError (msg : string)
| OSError (msg : string)
| IndexError (msg : string)
| StructError.

Inductive result (A : Type) : Type :=
| Return (a : A)
| Raise (e : exn)
| OutOfFuel.

Arguments Return {A} a.
Arguments Raise {A} e.
Arguments OutOfFuel {A}.

(** Sequencing of pure computations that may raise. *)
Definition rbind {A B : Type} (r : result A) (k : A -> result B) : result B :=
  match r with
  | Return a => k a
  | Raise e => Raise e
  | OutOfFuel => OutOfFuel
  end.

(* ------------------------------------------------------------------ *)
(** ** Bytes and the [struct] module *)

Definition byte_to_Z (b : byte) : Z := Z.of_N (Byte.to_N b).

(** The byte whose value is [z mod 256]. *)
Definition byte_of_Z (z : Z) : byte :=
  match Byte.of_N (Z.to_N (z mod 256)) with
  | Some b => b
  | None => x00
  end.

Module struct.

(** [struct.pack("B", v)]: one unsigned byte, [struct.error] out of range. *)
Definition pack_B (v : Z) : result (list byte) :=
  if (0 <=? v) && (v <=? 255) then Return [byte_of_Z v] else Raise StructError.

(** [struct.pack(">H", v)]: two bytes, most significant first. *)
Definition pack_H (v : Z) : result (list byte) :=
  if (0 <=? v) && (v <=? 65535)
  then Return [byte_of_Z (v / 256); byte_of_Z (v mod 256)]
  else Raise StructError.

(** Sequencing of packers: the first field to fail aborts the whole pack. *)
Definition and_then (a b : result (list byte)) : result (list byte) :=
  rbind a (fun xs => rbind b (fun ys => Return (xs ++ ys))).

(** [struct.pack("BB", a, b)] *)
Definition pack_BB (a b : Z) : result (list byte) :=
  and_then (pack_B a) (pack_B b).

(** [struct.pack(">HHHB", a, b, c, d)] *)
Definition pack_HHHB (a b c d : Z) : result (list byte) :=
  and_then (pack_H a) (and_then (pack_H b) (and_then (pack_H c) (pack_B d))).

(** The unsigned big-endian value of two bytes. *)
Definition be16 (hi lo : byte) : Z :=
  256 * byte_to_Z hi + byte_to_Z lo.

(** [struct.unpack(">HHHB", buf)]: the buffer must hold exactly 7 bytes. *)
Definition unpack_HHHB (buf : list byte) : result (Z * Z * Z * Z) :=
  match buf with
  | [a1; a0; b1; b0; c1; c0; d] =>
      Return (be16 a1 a0, be16 b1 b0, be16 c1 c0, byte_to_Z d)
  | _ => Raise StructError
  end.

(** [struct.unpack(">HH", buf)]: the buffer must hold exactly 4 bytes. *)
Definition unpack_HH (buf : list byte) : result (Z * Z) :=
  match buf with
  | [a1; a0; b1; b0] => Return (be16 a1 a0, be16 b1 b0)
  | _ => Raise StructError
  end.

End struct.

(* ------------------------------------------------------------------ *)
(** ** Python sequences *)

Definition len {A : Type} (l : list A) : Z := Z.of_nat (length l).

(** The bound [i] of a slice of a sequence of length [n], as Python
    normalises it: a negative bound counts from the end, and the result is
    clamped to [0..n]. *)
Definition slice_bound (n i : Z) : Z :=
  if i <? 0 then Z.max (i + n) 0 else Z.min i n.

(** [l[start:stop]] *)
Definition py_slice {A : Type} (l : list A) (start stop : Z) : list A :=
  let lo := slice_bound (len l) start in
  let hi := slice_bound (len l) stop in
  firstn (Z.to_nat (hi - lo)) (skipn (Z.to_nat lo) l).

(* ------------------------------------------------------------------ *)
(** ** The world: one client socket and the system clock *)

(** The fields of [datetime.datetime.now()] the server reads. *)
Record datetime : Type := {
  day : Z;
  month : Z;
  year : Z;
  hour : Z;
  minute : Z;
  second : Z
}.

(** A segment is a non-empty run of bytes that one [recv] can deliver. *)
Definition segment : Type := (byte * list byte)%type.

Definition segment_bytes (s : segment) : list byte := fst s :: snd s.

(** [inbox]: the segments the peer still delivers, in order; when none is
    left the peer has closed its side and [recv] returns [b""].
    [outbox]: the frames written by [sendall], oldest first.
    [closed]: whether [conn.close()] has run.
    [clock] and [ticks]: the [k]-th call of [datetime.now()] on this
    connection returns [clock k]; [ticks] counts the calls made so far. *)
Record world : Type := {
  inbox : list segment;
  outbox : list (list byte);
  closed : bool;
  clock : nat -> datetime;
  ticks : nat
}.

Definition set_inbox (w : world) (i : list segment) : world :=
  {| inbox := i; outbox := outbox w; closed := closed w;
     clock := clock w; ticks := ticks w |}.

Definition set_outbox (w : world) (o : list (list byte)) : world :=
  {| inbox := inbox w; outbox := o; closed := closed w;
     clock := clock w; ticks := ticks w |}.

Definition set_closed (w : world) : world :=
  {| inbox := inbox w; outbox := outbox w; closed := true;
     clock := clock w; ticks := ticks w |}.

Definition set_ticks (w : world) (t : nat) : world :=
  {| inbox := inbox w; outbox := outbox w; closed := closed w;
     clock := clock w; ticks := t |}.

(** The bytes the peer still delivers, whatever their segmentation. *)
Definition stream (w : world) : list byte :=
  flat_map segment_bytes (inbox w).

(* ------------------------------------------------------------------ *)
(** ** The monad of the handler *)

Definition M (A : Type) : Type := world -> result A * world.

Definition ret {A : Type} (a : A) : M A := fun w => (Return a, w).

Definition raise {A : Type} (e : exn) : M A := fun w => (Raise e, w).

Definition out_of_fuel {A : Type} : M A := fun w => (OutOfFuel, w).

Definition bind {A B : Type} (m : M A) (k : A -> M B) : M B :=
  fun w =>
    match m w with
    | (Return a, w') => k a w'
    | (Raise e, w') => (Raise e, w')
    | (OutOfFuel, w') => (OutOfFuel, w')
    end.

(** A pure computation that may raise, run inside the handler. *)
Definition lift {A : Type} (r : result A) : M A := fun w => (r, w).

(** [try: body  except <caught>: handler] *)
Definition try_except {A : Type} (body : M A) (caught : exn -> bool)
    (handler : exn -> M A) : M A :=
  fun w =>
    match body w with
    | (Raise e, w') => if caught e then handler e w' else (Raise e, w')
    | other => other
    end.

(** [try: body  finally: cleanup] *)
Definition try_finally {A : Type} (body : M A) (cleanup : M unit) : M A :=
  fun w =>
    match body w with
    | (r, w') =>
        match cleanup w' with
        | (Return _, w'') => (r, w'')
        | (Raise e, w'') => (Raise e, w'')
        | (OutOfFuel, w'') => (OutOfFuel, w'')
        end
    end.

Declare Scope monad_scope.
Delimit Scope monad_scope with monad.
Notation "x <- m ;; k" := (bind m (fun x => k))
  (at level 61, m at next level, right associativity) : monad_scope.
Notation "' pat <- m ;; k" := (bind m (fun x => match x with pat => k end))
  (at level 61, pat pattern, m at next level, right associativity) : monad_scope.
Notation "m ;;; k" := (bind m (fun _ => k))
  (at level 61, right associativity) : monad_scope.
Open Scope monad_scope.

(* ------------------------------------------------------------------ *)
(** ** Socket primitives *)

(** [sock.recv(bufsize)]: at most [bufsize] bytes of the next segment; the
    empty bytes object once the peer has closed. *)
Definition sock_recv (bufsize : Z) : M (list byte) :=
  fun w =>
    match inbox w with
    | [] => (Return [], w)
    | s :: rest =>
        let got := firstn (Z.to_nat bufsize) (segment_bytes s) in
        match skipn (Z.to_nat bufsize) (segment_bytes s) with
        | [] => (Return got, set_inbox w rest)
        | b :: bs => (Return got, set_inbox w ((b, bs) :: rest))
        end
    end.

(** [conn.sendall(data)] *)
Definition sendall (data : list byte) : M unit :=
  fun w => (Return tt, set_outbox w (outbox w ++ [data])).

(** [conn.close()] *)
Definition close : M unit :=
  fun w => (Return tt, set_closed w).

(** [dt.datetime.now()] *)
Definition datetime_now : M datetime :=
  fun w => (Return (clock w (ticks w)), set_ticks w (S (ticks w))).

(* ------------------------------------------------------------------ *)
(** ** Helpers *)

Definition is_empty {A : Type} (l : list A) : bool :=
  match l with [] => true | _ => false end.

(** The digit that the format code [X] prints for [0 <= n < 16]. *)
Definition hex_digit (n : Z) : ascii :=
  nth (Z.to_nat n)
    ["0"; "1"; "2"; "3"; "4"; "5"; "6"; "7";
     "8"; "9"; "A"; "B"; "C"; "D"; "E"; "F"]%char "0"%char.

(** [f"{b:02X}"] for an element [b] of a bytes object: two upper-case
    hexadecimal digits, the first one a zero below 16. *)
Definition format_02X (b : byte) : string :=
  String (hex_digit (byte_to_Z b / 16))
    (String (hex_digit (byte_to_Z b mod 16)) EmptyString).

(** [" ".join(f"{b:02X}" for b in data)]; [width] is accepted and unused. *)
Definition hexdump (data : list byte) (width : Z) : string :=
  String.concat " " (map format_02X data).

(** The [while bytes_recd < n] loop of [recv_exact]; [fuel] bounds the number
    of iterations. *)
Fixpoint recv_exact_loop (fuel : nat) (n : Z) (chunks : list (list byte))
    (bytes_recd : Z) : M (list byte) :=
  if bytes_recd <? n then
    match fuel with
    | O => out_of_fuel
    | S fuel' =>
        chunk <- sock_recv (n - bytes_recd) ;;
        if is_empty chunk
        then raise (ConnectionError "Socket closed while receiving data")
        else recv_exact_loop fuel' n (chunks ++ [chunk]) (bytes_recd + len chunk)
    end
  else ret (concat chunks).

(** Receive exactly [n] bytes or raise [ConnectionError] if the stream
    closes. Every iteration that does not raise receives at least one byte,
    so [n] iterations are enough. *)
Definition recv_exact (n : Z) : M (list byte) :=
  recv_exact_loop (Z.to_nat n) n [] 0.

(* ------------------------------------------------------------------ *)
(** ** Clock data *)

Definition registers_of (now : datetime) : list Z :=
  [day now; month now; year now; hour now; minute now; second now].

(** The six holding registers sampled from the clock; [IndexError] signals
    an illegal address range. *)
Definition read_clock_registers (start count : Z) : M (list Z) :=
  now <- datetime_now ;;
  let registers := registers_of now in
  let end_ := start + count in
  if (start <? 0) || (end_ >? len registers)
  then raise (IndexError "Illegal register address range")
  else ret (py_slice registers start end_).

(* ------------------------------------------------------------------ *)
(** ** Modbus protocol *)

Definition ILLEGAL_FUNCTION : Z := 0x01.
Definition ILLEGAL_DATA_ADDRESS : Z := 0x02.
Definition ILLEGAL_DATA_VALUE : Z := 0x03.

Definition build_exception_response (transaction_id protocol_id unit_id
    function ex_code : Z) : result (list byte) :=
  rbind (struct.pack_BB (Z.lor function 0x80) ex_code) (fun pdu =>
  let length := 1 + len pdu in
  rbind (struct.pack_HHHB transaction_id protocol_id length unit_id) (fun mbap =>
  Return (mbap ++ pdu))).

(** [b"".join(struct.pack(">H", v & 0xFFFF) for v in values)] *)
Fixpoint pack_registers (values : list Z) : result (list byte) :=
  match values with
  | [] => Return []
  | v :: vs => struct.and_then (struct.pack_H (Z.land v 0xFFFF)) (pack_registers vs)
  end.

Definition build_fc3_response (transaction_id protocol_id unit_id : Z)
    (values : list Z) : result (list byte) :=
  let byte_count := len values * 2 in
  rbind (struct.pack_BB 0x03 byte_count) (fun pdu_header =>
  rbind (pack_registers values) (fun regs =>
  let pdu := pdu_header ++ regs in
  let length := 1 + len pdu in
  rbind (struct.pack_HHHB transaction_id protocol_id length unit_id) (fun mbap =>
  Return (mbap ++ pdu)))).

Definition parse_mbap_header (hdr : list byte) : result (Z * Z * Z * Z) :=
  struct.unpack_HHHB hdr.

(* ------------------------------------------------------------------ *)
(** ** Client handler *)

Definition is_IndexError (e : exn) : bool :=
  match e with IndexError _ => true | _ => false end.

(** [except (ConnectionError, OSError)] *)
Definition is_transport_error (e : exn) : bool :=
  match e with ConnectionError _ | OSError _ => true | _ => false end.

(** One pass through the body of the [while True] loop of [handle_client];
    a [continue] is a return from this body. *)
Definition handle_request : M unit :=
  hdr <- recv_exact 7 ;;
  '(transaction_id, protocol_id, length, unit_id) <- lift (parse_mbap_header hdr) ;;
  pdu <- recv_exact (length - 1) ;;
  if is_empty pdu then raise (ConnectionError "Empty PDU received")
  else
    let function := byte_to_Z (nth 0 pdu x00) in
    if function =? 0x03 then
      if negb (len pdu =? 5) then
        resp <- lift (build_exception_response transaction_id protocol_id
                        unit_id function ILLEGAL_DATA_VALUE) ;;
        sendall resp
      else
        '(start_addr, qty) <- lift (struct.unpack_HH (py_slice pdu 1 5)) ;;
        if (qty <? 1) || (qty >? 125) then
          resp <- lift (build_exception_response transaction_id protocol_id
                          unit_id function ILLEGAL_DATA_VALUE) ;;
          sendall resp
        else
          r <- try_except
                 (vals <- read_clock_registers start_addr qty ;; ret (Some vals))
                 is_IndexError
                 (fun _ =>
                    resp <- lift (build_exception_response transaction_id
                                    protocol_id unit_id function
                                    ILLEGAL_DATA_ADDRESS) ;;
                    sendall resp ;;; ret None) ;;
          match r with
          | None => ret tt
          | Some vals =>
              resp <- lift (build_fc3_response transaction_id protocol_id
                              unit_id vals) ;;
              sendall resp
          end
    else
      resp <- lift (build_exception_response transaction_id protocol_id
                      unit_id function ILLEGAL_FUNCTION) ;;
      sendall resp.

(** The [while True] loop; [fuel] bounds the number of requests served. *)
Fixpoint serve_loop (fuel : nat) : M unit :=
  match fuel with
  | O => out_of_fuel
  | S fuel' => handle_request ;;; serve_loop fuel'
  end.

Definition handle_client (fuel : nat) : M unit :=
  try_finally
    (try_except (serve_loop fuel) is_transport_error (fun _ => ret tt))
    close.

(* ================================================================== *)
(** * Vocabulary of the statements *)

(** Everything but the bytes still to arrive is the same in both worlds. *)
Definition same_env (w w' : world) : Prop :=
  outbox w' = outbox w /\ closed w' = closed w /\
  clock w' = clock w /\ ticks w' = ticks w.

(** The exception [recv_exact] raises when the peer closes mid-read. *)
Definition closed_while_receiving : exn :=
  ConnectionError "Socket closed while receiving data".

(** The frame with the given transaction, protocol and unit bytes around
    [pdu]; its length field counts the unit byte and the PDU. *)
Definition frame (t1 t0 p1 p0 u : byte) (pdu : list byte) : list byte :=
  [t1; t0; p1; p0;
   byte_of_Z ((1 + len pdu) / 256); byte_of_Z ((1 + len pdu) mod 256); u] ++ pdu.

(** A register on the wire: 16 bits, most significant byte first. *)
Definition register_bytes (v : Z) : list byte :=
  [byte_of_Z (Z.land v 0xFFFF / 256); byte_of_Z (Z.land v 0xFFFF mod 256)].

(** The exception [read_clock_registers] raises. *)
Definition illegal_range : exn := IndexError "Illegal register address range".

(** The response PDU for a non-empty request PDU, clause by clause. *)
Definition response_pdu (now : datetime) (pdu : list byte) : list byte :=
  match pdu with
  | [] => []
  | fc :: payload =>
      if byte_to_Z fc =? 0x03 then
        match payload with
        | [s1; s0; q1; q0] =>
            let start := struct.be16 s1 s0 in
            let qty := struct.be16 q1 q0 in
            if (qty <? 1) || (qty >? 125) then [x83; x03]
            else if start + qty >? 6 then [x83; x02]
            else [x03; byte_of_Z (2 * qty)]
                 ++ flat_map register_bytes
                      (firstn (Z.to_nat qty)
                         (skipn (Z.to_nat start) (registers_of now)))
        | _ => [x83; x03]
        end
      else [byte_of_Z (Z.lor (byte_to_Z fc) 0x80); x01]
  end.

(** Whether serving the request PDU reads the clock. *)
Definition samples_clock (pdu : list byte) : bool :=
  match pdu with
  | [fc; _; _; q1; q0] =>
      (byte_to_Z fc =? 0x03)
      && negb ((struct.be16 q1 q0 <? 1) || (struct.be16 q1 q0 >? 125))
  | _ => false
  end.

(** The exception the handler raises on a frame without a PDU. *)
Definition empty_pdu_received : exn := ConnectionError "Empty PDU received".

(** How a byte stream begins: with too little for a header, with a header
    that leaves no PDU, with a truncated PDU, or with a whole frame. *)
Inductive stream_head (s : list byte) : Prop :=
| head_no_header : len s < 7 -> stream_head s
| head_empty_pdu t1 t0 p1 p0 l1 l0 u rest :
    s = [t1; t0; p1; p0; l1; l0; u] ++ rest ->
    struct.be16 l1 l0 <= 1 -> stream_head s
| head_truncated t1 t0 p1 p0 l1 l0 u tail :
    s = [t1; t0; p1; p0; l1; l0; u] ++ tail ->
    len tail < struct.be16 l1 l0 - 1 -> stream_head s
| head_frame t1 t0 p1 p0 l1 l0 u fc payload rest :
    s = [t1; t0; p1; p0; l1; l0; u] ++ (fc :: payload) ++ rest ->
    struct.be16 l1 l0 = 2 + len payload -> stream_head s.

(** A connection on which the clock always reads 2025-06-15 13:45:30. *)
Definition mock_now : datetime :=
  {| day := 15; month := 6; year := 2025; hour := 13; minute := 45; second := 30 |}.

(** A fresh connection on which [segments] are still to arrive. *)
Definition connection (segments : list segment) : world :=
  {| inbox := segments; outbox := []; closed := false;
     clock := fun _ => mock_now; ticks := 0 |}.

(** The three validity checks of a read request, in the order in which
    the specification lists them. *)
Inductive check : Type := LengthCheck | QuantityCheck | AddressCheck.

Definition request_start (pdu : list byte) : Z :=
  struct.be16 (nth 1 pdu x00) (nth 2 pdu x00).

Definition request_quantity (pdu : list byte) : Z :=
  struct.be16 (nth 3 pdu x00) (nth 4 pdu x00).

Definition violates (pdu : list byte) (c : check) : bool :=
  match c with
  | LengthCheck => negb (len pdu =? 5)
  | QuantityCheck => (request_quantity pdu <? 1) || (request_quantity pdu >? 125)
  | AddressCheck =>
      (request_start pdu <? 0) || (request_start pdu + request_quantity pdu >? 6)
  end.

Definition exception_code (c : check) : byte :=
  match c with
  | LengthCheck => x03
  | QuantityCheck => x03
  | AddressCheck => x02
  end.

Definition first_violated (pdu : list byte) : option check :=
  find (violates pdu) [LengthCheck; QuantityCheck; AddressCheck].

(** The length field of a frame counts the unit byte and the PDU that
    follow it. *)
Definition length_field_ok (fr : list byte) : Prop :=
  exists tid pid uid,
    parse_mbap_header (firstn 7 fr) = Return (tid, pid, 1 + len (skipn 7 fr), uid).

(** The frames the server can emit: what either builder returns, and what
    a pass of the handler writes to the socket. *)
Inductive emitted (fr : list byte) : Prop :=
| emitted_exception (tid pid uid function ex_code : Z) :
    build_exception_response tid pid uid function ex_code = Return fr ->
    emitted fr
| emitted_fc3 (tid pid uid : Z) (values : list Z) :
    build_fc3_response tid pid uid values = Return fr ->
    emitted fr
| emitted_by_handler (w : world) :
    outbox (snd (handle_request w)) = outbox w ++ [fr] ->
    emitted fr.

(** The first concrete scenario of the specification. *)
Definition scenario_request : list byte :=
  [x00; x01; x00; x00; x00; x06; x01; x03; x00; x00; x00; x06].

Definition scenario_response : list byte :=
  [x00; x01; x00; x00; x00; x0f; x01; x03; x0c;
   x00; x0f; x00; x06; x07; xe9; x00; x0d; x00; x2d; x00; x1e].

(** The value of an upper-case hexadecimal digit. *)
Definition hex_value (c : ascii) : option Z :=
  match find (fun n => Ascii.eqb (hex_digit n) c)
          [0; 1; 2; 3; 4; 5; 6; 7; 8; 9; 10; 11; 12; 13; 14; 15] with
  | Some n => Some n
  | None => None
  end.

(** Reading a hex dump back: pairs of digits separated by single spaces. *)
Fixpoint unhexdump (s : string) : option (list byte) :=
  match s with
  | EmptyString => Some []
  | String a (String b rest) =>
      match hex_value a, hex_value b with
      | Some h, Some l =>
          match rest with
          | EmptyString => Some [byte_of_Z (16 * h + l)]
          | String sp rest' =>
              if Ascii.eqb sp " "
              then option_map (cons (byte_of_Z (16 * h + l))) (unhexdump rest')
              else None
          end
      | _, _ => None
      end
  | String _ EmptyString => None
  end.

(** Reading registers back from the wire: big-endian pairs of bytes. *)
Fixpoint decode_registers (bs : list byte) : list Z :=
  match bs with
  | hi :: lo :: rest => struct.be16 hi lo :: decode_registers rest
  | _ => []
  end.

(** The values [struct] accepts for the fields of an MBAP header. *)
Definition header_fields_in_range (tid pid uid : Z) : Prop :=
  0 <= tid <= 65535 /\ 0 <= pid <= 65535 /\ 0 <= uid <= 255.

(** Two worlds that differ at most in how the bytes still to come are
    split into segments. *)
Definition same_input (w1 w2 : world) : Prop :=
  stream w1 = stream w2 /\ outbox w1 = outbox w2 /\ closed w1 = closed w2 /\
  clock w1 = clock w2 /\ ticks w1 = ticks w2.

(** A request as a client sends it: the transaction, protocol and unit
    bytes, and a PDU made of a function byte and a payload. *)
Record request : Type := {
  rq_t1 : byte; rq_t0 : byte;
  rq_p1 : byte; rq_p0 : byte;
  rq_unit : byte;
  rq_function : byte;
  rq_payload : list byte
}.

Definition request_pdu (r : request) : list byte :=
  rq_function r :: rq_payload r.

(** The request on the wire, with a length field that counts the unit byte
    and the PDU. *)
Definition request_frame (r : request) : list byte :=
  frame (rq_t1 r) (rq_t0 r) (rq_p1 r) (rq_p0 r) (rq_unit r) (request_pdu r).

(** The responses to a sequence of requests, in order, when [ticks] clock
    samples have been taken before the first one. *)
Fixpoint replies (clk : nat -> datetime) (ticks : nat) (rs : list request)
    : list (list byte) :=
  match rs with
  | [] => []
  | r :: rs' =>
      frame (rq_t1 r) (rq_t0 r) (rq_p1 r) (rq_p0 r) (rq_unit r)
        (response_pdu (clk ticks) (request_pdu r))
      :: replies clk (ticks + if samples_clock (request_pdu r) then 1 else 0) rs'
  end.

(** A fresh connection whose clock advances by one second at each sample,
    starting from [mock_now]. *)
Definition ticking_connection (segments : list segment) : world :=
  {| inbox := segments; outbox := []; closed := false;
     clock := fun k =>
       {| day := 15; month := 6; year := 2025;
          hour := 13; minute := 45; second := 30 + Z.of_nat k |};
     ticks := 0 |}.

(** A read of the seconds register under transaction identifier [tid]. *)
Definition read_seconds (tid : byte) : request :=
  {| rq_t1 := x00; rq_t0 := tid; rq_p1 := x00; rq_p0 := x00; rq_unit := x01;
     rq_function := x03; rq_payload := [x00; x05; x00; x01] |}.

(* ================================================================== *)
(** * Properties *)

(* ------------------------------------------------------------------ *)
(** ** Bytes and big-endian words *)

Lemma byte_to_Z_range (b : byte) : 0 <= byte_to_Z b <= 255.
Proof.
  unfold byte_to_Z. pose proof (Byte.to_N_bounded b). lia.
Qed.

Lemma byte_of_to_Z (b : byte) : byte_of_Z (byte_to_Z b) = b.
Proof.
  unfold byte_of_Z. pose proof (byte_to_Z_range b) as Hb.
  rewrite Z.mod_small by lia.
  unfold byte_to_Z. rewrite N2Z.id, Byte.of_to_N. reflexivity.
Qed.

Lemma byte_to_of_Z (z : Z) : byte_to_Z (byte_of_Z z) = z mod 256.
Proof.
  unfold byte_of_Z, byte_to_Z.
  pose proof (Z.mod_pos_bound z 256 ltac:(lia)) as Hm.
  destruct (Byte.of_N (Z.to_N (z mod 256))) as [b|] eqn:E.
  - apply Byte.to_of_N in E. rewrite E. lia.
  - apply Byte.of_N_None_iff in E. lia.
Qed.

Lemma byte_to_Z_inj (a b : byte) : byte_to_Z a = byte_to_Z b -> a = b.
Proof.
  intros H. rewrite <- (byte_of_to_Z a), <- (byte_of_to_Z b), H. reflexivity.
Qed.

Lemma be16_range (hi lo : byte) : 0 <= struct.be16 hi lo <= 65535.
Proof.
  unfold struct.be16.
  pose proof (byte_to_Z_range hi). pose proof (byte_to_Z_range lo). lia.
Qed.

Lemma pack_B_byte (b : byte) : struct.pack_B (byte_to_Z b) = Return [b].
Proof.
  unfold struct.pack_B. pose proof (byte_to_Z_range b) as Hb.
  replace ((0 <=? byte_to_Z b) && (byte_to_Z b <=? 255)) with true
    by (symmetry; apply andb_true_intro; split; apply Z.leb_le; lia).
  rewrite byte_of_to_Z. reflexivity.
Qed.

Lemma pack_H_be16 (hi lo : byte) :
  struct.pack_H (struct.be16 hi lo) = Return [hi; lo].
Proof.
  unfold struct.pack_H. pose proof (be16_range hi lo) as Hr.
  replace ((0 <=? struct.be16 hi lo) && (struct.be16 hi lo <=? 65535)) with true
    by (symmetry; apply andb_true_intro; split; apply Z.leb_le; lia).
  unfold struct.be16 in *.
  pose proof (byte_to_Z_range hi) as Hh. pose proof (byte_to_Z_range lo) as Hl.
  replace ((256 * byte_to_Z hi + byte_to_Z lo) / 256) with (byte_to_Z hi)
    by (apply Z.div_unique with (r := byte_to_Z lo); lia).
  replace ((256 * byte_to_Z hi + byte_to_Z lo) mod 256) with (byte_to_Z lo)
    by (apply Z.mod_unique with (q := byte_to_Z hi); lia).
  rewrite !byte_of_to_Z. reflexivity.
Qed.

(** Two bytes packed by [">H"] decode to the value packed. *)
Lemma be16_pack_H (v : Z) :
  0 <= v <= 65535 ->
  struct.pack_H v = Return [byte_of_Z (v / 256); byte_of_Z (v mod 256)] /\
  struct.be16 (byte_of_Z (v / 256)) (byte_of_Z (v mod 256)) = v.
Proof.
  intros Hv. unfold struct.pack_H, struct.be16.
  replace ((0 <=? v) && (v <=? 65535)) with true
    by (symmetry; apply andb_true_intro; split; apply Z.leb_le; lia).
  split; [reflexivity|].
  rewrite !byte_to_of_Z.
  assert (0 <= v / 256 < 256) by (split; [apply Z.div_pos | apply Z.div_lt_upper_bound]; lia).
  rewrite (Z.mod_small (v / 256)) by lia.
  rewrite Z.mod_mod by lia.
  pose proof (Z.div_mod v 256 ltac:(lia)). lia.
Qed.

Lemma lor_0x80_range (b : byte) : 0 <= Z.lor (byte_to_Z b) 0x80 <= 255.
Proof.
  destruct b; vm_compute; split; discriminate.
Qed.

(* ------------------------------------------------------------------ *)
(** ** The monad *)

Lemma bind_Return {A B : Type} (m : M A) (k : A -> M B) w a w' :
  m w = (Return a, w') -> bind m k w = k a w'.
Proof. intros H. unfold bind. rewrite H. reflexivity. Qed.

Arguments bind_Return {A B m k w a w'} _.

Lemma bind_Raise {A B : Type} (m : M A) (k : A -> M B) w e w' :
  m w = (Raise e, w') -> bind m k w = (Raise e, w').
Proof. intros H. unfold bind. rewrite H. reflexivity. Qed.

Arguments bind_Raise {A B m k w e w'} _.

Lemma bind_lift_Return {A B : Type} (a : A) (k : A -> M B) w :
  bind (lift (Return a)) k w = k a w.
Proof. reflexivity. Qed.

(* ------------------------------------------------------------------ *)
(** ** Receiving *)

Lemma same_env_refl w : same_env w w.
Proof. repeat split. Qed.

Lemma same_env_trans w1 w2 w3 : same_env w1 w2 -> same_env w2 w3 -> same_env w1 w3.
Proof.
  unfold same_env. intros (a & b & c & d) (a' & b' & c' & d').
  repeat split; congruence.
Qed.

Lemma same_env_set_inbox w i : same_env w (set_inbox w i).
Proof. repeat split. Qed.

(** One [recv] of a positive size takes a prefix of the stream; the prefix
    is empty only when nothing is left. *)
Lemma sock_recv_spec (k : Z) (w : world) :
  0 < k ->
  exists got w',
    sock_recv k w = (Return got, w') /\
    stream w = got ++ stream w' /\
    same_env w w' /\
    len got <= k /\
    (got = [] -> stream w = []).
Proof.
  intros Hk. unfold sock_recv, stream.
  destruct (inbox w) as [|s rest] eqn:Hin.
  - exists [], w. rewrite Hin. cbn.
    split; [reflexivity|]. split; [reflexivity|].
    split; [apply same_env_refl|]. split; [lia|reflexivity].
  - pose proof (firstn_skipn (Z.to_nat k) (segment_bytes s)) as Hsplit.
    assert (Hlen : len (firstn (Z.to_nat k) (segment_bytes s)) <= k).
    { unfold len. rewrite length_firstn. lia. }
    assert (Hne : firstn (Z.to_nat k) (segment_bytes s) = [] -> False).
    { destruct (Z.to_nat k) eqn:E; [lia|]. discriminate. }
    destruct (skipn (Z.to_nat k) (segment_bytes s)) as [|b bs] eqn:Hsk.
    + eexists _, _. split; [reflexivity|]. cbn [inbox set_inbox flat_map].
      rewrite app_nil_r in Hsplit. rewrite Hsplit.
      split; [reflexivity|]. split; [apply same_env_set_inbox|].
      split; [rewrite Hsplit in Hlen; exact Hlen|].
      intros E. rewrite <- Hsplit in E. now apply Hne in E.
    + eexists _, _. split; [reflexivity|]. cbn [inbox set_inbox flat_map].
      unfold segment_bytes at 2. cbn [fst snd].
      rewrite <- Hsplit at 1. rewrite <- app_assoc.
      split; [reflexivity|]. split; [apply same_env_set_inbox|]. split; [exact Hlen|].
      intros E. now apply Hne in E.
Qed.

(** The receive loop: with enough budget for the bytes still missing, it
    returns them when the stream holds that many, and raises otherwise. *)
Lemma recv_exact_loop_spec (fuel : nat) :
  forall (n : Z) (chunks : list (list byte)) (recd : Z) (w : world),
    (Z.to_nat (n - recd) <= fuel)%nat ->
    exists w',
      same_env w w' /\
      ((Z.to_nat (n - recd) <= length (stream w))%nat ->
         recv_exact_loop fuel n chunks recd w =
           (Return (concat chunks ++ firstn (Z.to_nat (n - recd)) (stream w)), w') /\
         stream w' = skipn (Z.to_nat (n - recd)) (stream w)) /\
      ((length (stream w) < Z.to_nat (n - recd))%nat ->
         recv_exact_loop fuel n chunks recd w = (Raise closed_while_receiving, w') /\
         stream w' = []).
Proof.
  induction fuel as [|fuel IH]; intros n chunks recd w Hfuel.
  - exists w. split; [apply same_env_refl|].
    assert (Hle : n - recd <= 0) by lia.
    replace (Z.to_nat (n - recd)) with 0%nat by lia.
    cbn [recv_exact_loop]. replace (recd <? n) with false by (symmetry; apply Z.ltb_ge; lia).
    split; [|lia]. intros _. cbn. rewrite app_nil_r. auto.
  - cbn [recv_exact_loop]. destruct (recd <? n) eqn:Hlt.
    2:{ apply Z.ltb_ge in Hlt. exists w. split; [apply same_env_refl|].
        replace (Z.to_nat (n - recd)) with 0%nat by lia.
        split; [|lia]. intros _. cbn. rewrite app_nil_r. auto. }
    apply Z.ltb_lt in Hlt.
    destruct (@sock_recv_spec (n - recd) w ltac:(lia))
      as (got & w1 & Hrecv & Hstream & Henv & Hgot & Hnil).
    rewrite (bind_Return Hrecv).
    destruct got as [|g got'].
    + exists w1. split; [exact Henv|]. rewrite (Hnil eq_refl).
      cbn [is_empty length]. split; [lia|]. intros _. split; [reflexivity|].
      rewrite (Hnil eq_refl) in Hstream. cbn in Hstream. congruence.
    + cbn [is_empty].
      set (got := g :: got') in *.
      assert (Hpos : 1 <= len got) by (unfold len, got; cbn [length]; lia).
      destruct (IH n (chunks ++ [got]) (recd + len got) w1 ltac:(lia))
        as (w2 & Henv2 & Hok & Hshort).
      exists w2. split; [eapply same_env_trans; eassumption|].
      rewrite Hstream, length_app.
      replace (Z.to_nat (n - (recd + len got)))
        with (Z.to_nat (n - recd) - length got)%nat in * by (unfold len; lia).
      assert (Hlg : (length got <= Z.to_nat (n - recd))%nat) by (unfold len in Hgot; lia).
      split.
      * intros Hen. destruct Hok as [Hrun Hrest]; [lia|].
        rewrite Hrun, Hrest. split.
        -- rewrite concat_app. cbn [concat]. rewrite app_nil_r, <- app_assoc.
           rewrite firstn_app, (firstn_all2 got) by lia. reflexivity.
        -- rewrite skipn_app, (skipn_all2 got) by lia. reflexivity.
      * intros Hsh. destruct Hshort as [Hrun Hrest]; [lia|]. auto.
Qed.

Lemma recv_exact_ok (n : Z) (w : world) :
  n <= len (stream w) ->
  exists w',
    recv_exact n w = (Return (firstn (Z.to_nat n) (stream w)), w') /\
    stream w' = skipn (Z.to_nat n) (stream w) /\
    same_env w w'.
Proof.
  intros Hn. unfold recv_exact.
  destruct (@recv_exact_loop_spec (Z.to_nat n) n [] 0 w ltac:(lia))
    as (w' & Henv & Hok & _).
  rewrite Z.sub_0_r in Hok.
  destruct Hok as [Hrun Hrest]; [unfold len in Hn; lia|].
  exists w'. cbn [concat app] in Hrun. auto.
Qed.

Lemma recv_exact_short (n : Z) (w : world) :
  len (stream w) < n ->
  exists w',
    recv_exact n w = (Raise closed_while_receiving, w') /\
    stream w' = [] /\
    same_env w w'.
Proof.
  intros Hn. unfold recv_exact.
  destruct (@recv_exact_loop_spec (Z.to_nat n) n [] 0 w ltac:(lia))
    as (w' & Henv & _ & Hshort).
  rewrite Z.sub_0_r in Hshort.
  destruct Hshort as [Hrun Hrest]; [unfold len in Hn; lia|].
  exists w'. auto.
Qed.

(** [recv_exact] never exhausts its budget. *)
Lemma recv_exact_total (n : Z) (w : world) :
  fst (recv_exact n w) <> OutOfFuel.
Proof.
  destruct (Z_le_gt_dec n (len (stream w))) as [Hle|Hgt].
  - destruct (recv_exact_ok n w Hle) as (w' & -> & _). discriminate.
  - destruct (@recv_exact_short n w ltac:(lia)) as (w' & -> & _). discriminate.
Qed.

(** Receiving a prefix of known length, however it is segmented. *)
Lemma recv_exact_prefix (n : Z) (w : world) (pre rest : list byte) :
  stream w = pre ++ rest ->
  len pre = Z.max n 0 ->
  exists w', recv_exact n w = (Return pre, w') /\ stream w' = rest /\ same_env w w'.
Proof.
  intros Hs Hlen.
  assert (Hn : n <= len (stream w)).
  { rewrite Hs. unfold len in *. rewrite length_app. lia. }
  destruct (recv_exact_ok n w Hn) as (w' & Hrun & Hrest & Henv).
  exists w'. rewrite Hrun, Hrest, Hs.
  assert (Hk : Z.to_nat n = length pre) by (unfold len in Hlen; lia).
  rewrite Hk, firstn_app, skipn_app, Nat.sub_diag, firstn_all, skipn_all.
  cbn. rewrite app_nil_r. auto.
Qed.

(* ------------------------------------------------------------------ *)
(** ** Frames on the wire *)

Lemma land_0xFFFF_range (v : Z) : 0 <= Z.land v 0xFFFF <= 65535.
Proof.
  change 0xFFFF with (Z.ones 16). rewrite Z.land_ones by lia.
  change (2 ^ 16) with 65536. change (Z.ones 16) with 65535.
  pose proof (Z.mod_pos_bound v 65536 ltac:(lia)). lia.
Qed.

Lemma pack_registers_bytes (values : list Z) :
  pack_registers values = Return (flat_map register_bytes values).
Proof.
  induction values as [|v vs IH]; [reflexivity|].
  cbn [pack_registers flat_map]. rewrite IH.
  destruct (be16_pack_H _ (land_0xFFFF_range v)) as [-> _]. reflexivity.
Qed.

Lemma length_register_bytes (values : list Z) :
  len (flat_map register_bytes values) = 2 * len values.
Proof.
  unfold len. induction values as [|v vs IH]; [reflexivity|].
  cbn [flat_map]. rewrite length_app. cbn [length register_bytes]. lia.
Qed.

Lemma pack_HHHB_echo (t1 t0 p1 p0 u : byte) (length : Z) :
  0 <= length <= 65535 ->
  struct.pack_HHHB (struct.be16 t1 t0) (struct.be16 p1 p0) length (byte_to_Z u)
  = Return [t1; t0; p1; p0;
            byte_of_Z (length / 256); byte_of_Z (length mod 256); u].
Proof.
  intros Hl. unfold struct.pack_HHHB.
  rewrite !pack_H_be16, pack_B_byte.
  destruct (be16_pack_H _ Hl) as [-> _]. reflexivity.
Qed.

(** An exception response built from the fields of a received header. *)
Lemma build_exception_response_bytes (t1 t0 p1 p0 u fc : byte) (ex_code : Z) :
  0 <= ex_code <= 255 ->
  build_exception_response (struct.be16 t1 t0) (struct.be16 p1 p0)
    (byte_to_Z u) (byte_to_Z fc) ex_code
  = Return (frame t1 t0 p1 p0 u
              [byte_of_Z (Z.lor (byte_to_Z fc) 0x80); byte_of_Z ex_code]).
Proof.
  intros Hc. unfold build_exception_response, struct.pack_BB, struct.pack_B.
  pose proof (lor_0x80_range fc) as Hf.
  replace ((0 <=? Z.lor (byte_to_Z fc) 128) && (Z.lor (byte_to_Z fc) 128 <=? 255))
    with true by (symmetry; apply andb_true_intro; split; apply Z.leb_le; lia).
  replace ((0 <=? ex_code) && (ex_code <=? 255))
    with true by (symmetry; apply andb_true_intro; split; apply Z.leb_le; lia).
  cbn [struct.and_then rbind app].
  rewrite pack_HHHB_echo by (unfold len; cbn [length]; lia). reflexivity.
Qed.

(** A normal response built from the fields of a received header. *)
Lemma build_fc3_response_bytes (t1 t0 p1 p0 u : byte) (values : list Z) :
  len values <= 127 ->
  build_fc3_response (struct.be16 t1 t0) (struct.be16 p1 p0) (byte_to_Z u) values
  = Return (frame t1 t0 p1 p0 u
              ([x03; byte_of_Z (2 * len values)] ++ flat_map register_bytes values)).
Proof.
  intros Hn. unfold build_fc3_response, struct.pack_BB, struct.pack_B.
  assert (Hpos : 0 <= len values) by (unfold len; lia).
  replace ((0 <=? len values * 2) && (len values * 2 <=? 255))
    with true by (symmetry; apply andb_true_intro; split; apply Z.leb_le; lia).
  rewrite pack_registers_bytes.
  change ((0 <=? 3) && (3 <=? 255)) with true.
  change (byte_of_Z 3) with x03.
  cbn [struct.and_then rbind app].
  pose proof (length_register_bytes values) as Hregs.
  rewrite pack_HHHB_echo.
  - cbn [rbind]. unfold frame. rewrite (Z.mul_comm (len values) 2). reflexivity.
  - unfold len in *. cbn [length]. lia.
Qed.

(* ------------------------------------------------------------------ *)
(** ** Reading the clock *)

Lemma py_slice_in_range {A : Type} (l : list A) (start count : Z) :
  0 <= start -> 0 <= count -> start + count <= len l ->
  py_slice l start (start + count)
  = firstn (Z.to_nat count) (skipn (Z.to_nat start) l).
Proof.
  intros Hs Hc Hl. unfold py_slice, slice_bound.
  replace (start <? 0) with false by (symmetry; apply Z.ltb_ge; lia).
  replace (start + count <? 0) with false by (symmetry; apply Z.ltb_ge; lia).
  rewrite !Z.min_l by lia.
  replace (start + count - start) with count by lia. reflexivity.
Qed.

(** What [read_clock_registers] does in every world: it samples the clock
    once, then either rejects the range or slices the six registers. *)
Lemma read_clock_registers_run (start count : Z) (w : world) :
  read_clock_registers start count w
  = (if (start <? 0) || (start + count >? 6)
     then Raise illegal_range
     else Return (py_slice (registers_of (clock w (ticks w))) start (start + count)),
     set_ticks w (S (ticks w))).
Proof.
  unfold read_clock_registers, bind, datetime_now.
  change (len (registers_of (clock w (ticks w)))) with 6.
  destruct ((start <? 0) || (start + count >? 6)); reflexivity.
Qed.

(* ------------------------------------------------------------------ *)
(** ** One request *)

Lemma sendall_run (data : list byte) (w : world) :
  exists w',
    sendall data w = (Return tt, w') /\
    stream w' = stream w /\
    outbox w' = outbox w ++ [data] /\
    closed w' = closed w /\ clock w' = clock w /\ ticks w' = ticks w.
Proof.
  eexists. split; [reflexivity|]. repeat split.
Qed.

Lemma length_payload_cases (payload : list byte) :
  (exists s1 s0 q1 q0, payload = [s1; s0; q1; q0]) \/ len payload <> 4.
Proof.
  destruct payload as [|a [|b [|c [|d [|e l]]]]];
    try (right; unfold len; cbn [length]; lia).
  left. eauto.
Qed.

(** A frame with a non-empty PDU is always answered: the handler consumes
    exactly the frame, appends one response frame carrying the echoed header
    fields around [response_pdu], and goes on. *)
Lemma handle_request_serves (w : world) (t1 t0 p1 p0 l1 l0 u fc : byte)
    (payload rest : list byte) :
  stream w = [t1; t0; p1; p0; l1; l0; u] ++ (fc :: payload) ++ rest ->
  struct.be16 l1 l0 = 2 + len payload ->
  exists w',
    handle_request w = (Return tt, w') /\
    stream w' = rest /\
    outbox w' = outbox w ++
      [frame t1 t0 p1 p0 u (response_pdu (clock w (ticks w)) (fc :: payload))] /\
    closed w' = closed w /\ clock w' = clock w /\
    ticks w' = (ticks w + if samples_clock (fc :: payload) then 1 else 0)%nat.
Proof.
  intros Hstream Hlen.
  destruct (@recv_exact_prefix 7 w _ _ Hstream eq_refl)
    as (w1 & Hhdr & Hs1 & (Ho1 & Hc1 & Hk1 & Ht1)).
  assert (Hbody : len (fc :: payload) = Z.max (struct.be16 l1 l0 - 1) 0).
  { rewrite Hlen. unfold len. cbn [length]. lia. }
  destruct (@recv_exact_prefix _ w1 _ _ Hs1 Hbody)
    as (w2 & Hpdu & Hs2 & (Ho2 & Hc2 & Hk2 & Ht2)).
  unfold handle_request.
  rewrite (bind_Return Hhdr). cbv beta.
  unfold parse_mbap_header, struct.unpack_HHHB.
  rewrite bind_lift_Return. cbv beta iota.
  rewrite (bind_Return Hpdu). cbv beta.
  cbn [is_empty nth response_pdu].
  destruct (byte_to_Z fc =? 3) eqn:Hfc.
  2:{ (* unsupported function *)
      rewrite build_exception_response_bytes by (unfold ILLEGAL_FUNCTION; lia).
      rewrite bind_lift_Return.
      destruct (sendall_run (frame t1 t0 p1 p0 u
                  [byte_of_Z (Z.lor (byte_to_Z fc) 128); byte_of_Z ILLEGAL_FUNCTION]) w2)
        as (w3 & Hsend & Hs3 & Ho3 & Hc3 & Hk3 & Ht3).
      exists w3. rewrite Hsend.
      change (byte_of_Z ILLEGAL_FUNCTION) with x01 in Ho3.
      assert (Hclk : samples_clock (fc :: payload) = false).
      { destruct payload as [|a [|b [|c [|d [|e l]]]]]; cbn [samples_clock];
          try reflexivity. rewrite Hfc. reflexivity. }
      rewrite Hclk, Nat.add_0_r.
      repeat split; congruence. }
  apply Z.eqb_eq in Hfc.
  assert (Hx03 : fc = x03) by (apply byte_to_Z_inj; rewrite Hfc; reflexivity).
  subst fc. clear Hfc.
  change (Z.lor (byte_to_Z x03) 128) with 131.
  destruct (length_payload_cases payload) as [(s1 & s0 & q1 & q0 & ->)|Hbad].
  - (* well-formed read request *)
    change (len [x03; s1; s0; q1; q0] =? 5) with true. cbn [negb].
    change (py_slice [x03; s1; s0; q1; q0] 1 5) with [s1; s0; q1; q0].
    unfold struct.unpack_HH. rewrite bind_lift_Return. cbv beta iota.
    cbn [samples_clock]. change (byte_to_Z x03 =? 3) with true. cbn [andb].
    destruct ((struct.be16 q1 q0 <? 1) || (struct.be16 q1 q0 >? 125)) eqn:Hqty.
    + rewrite build_exception_response_bytes by (unfold ILLEGAL_DATA_VALUE; lia).
      rewrite bind_lift_Return.
      destruct (sendall_run (frame t1 t0 p1 p0 u
                  [byte_of_Z (Z.lor (byte_to_Z x03) 128); byte_of_Z ILLEGAL_DATA_VALUE]) w2)
        as (w3 & Hsend & Hs3 & Ho3 & Hc3 & Hk3 & Ht3).
      exists w3. rewrite Hsend. cbn [negb]. rewrite Nat.add_0_r.
      change (byte_of_Z (Z.lor (byte_to_Z x03) 128)) with x83 in Ho3.
      change (byte_of_Z ILLEGAL_DATA_VALUE) with x03 in Ho3.
      repeat split; congruence.
    + cbn [negb].
      apply orb_false_elim in Hqty. destruct Hqty as [Hq1 Hq2].
      apply Z.ltb_ge in Hq1. rewrite Z.gtb_ltb in Hq2. apply Z.ltb_ge in Hq2.
      pose proof (be16_range s1 s0) as Hstart.
      unfold bind at 1. unfold try_except. unfold bind at 1.
      rewrite read_clock_registers_run.
      replace (struct.be16 s1 s0 <? 0) with false by (symmetry; apply Z.ltb_ge; lia).
      cbn [orb].
      destruct (struct.be16 s1 s0 + struct.be16 q1 q0 >? 6) eqn:Haddr.
      * cbn [is_IndexError illegal_range].
        rewrite build_exception_response_bytes by (unfold ILLEGAL_DATA_ADDRESS; lia).
        rewrite bind_lift_Return.
        destruct (sendall_run (frame t1 t0 p1 p0 u
                    [byte_of_Z (Z.lor (byte_to_Z x03) 128); byte_of_Z ILLEGAL_DATA_ADDRESS])
                    (set_ticks w2 (S (ticks w2))))
          as (w3 & Hsend & Hs3 & Ho3 & Hc3 & Hk3 & Ht3).
        exists w3. rewrite (bind_Return Hsend). unfold ret. cbv beta iota.
        change (byte_of_Z (Z.lor (byte_to_Z x03) 128)) with x83 in Ho3.
        change (byte_of_Z ILLEGAL_DATA_ADDRESS) with x02 in Ho3.
        cbn [outbox closed clock ticks set_ticks] in *.
        unfold stream in *. cbn [inbox set_ticks] in *.
        repeat split; try congruence. rewrite Ht3, Ht2, Ht1. lia.
      * rewrite Z.gtb_ltb in Haddr. apply Z.ltb_ge in Haddr.
        rewrite py_slice_in_range by (try (unfold len; cbn [length registers_of]); lia).
        unfold ret at 1. cbv beta iota.
        set (vals := firstn (Z.to_nat (struct.be16 q1 q0))
                       (skipn (Z.to_nat (struct.be16 s1 s0))
                          (registers_of (clock w2 (ticks w2))))).
        assert (Hvals : len vals = struct.be16 q1 q0).
        { unfold vals, len. rewrite length_firstn, length_skipn.
          cbn [length registers_of]. lia. }
        rewrite build_fc3_response_bytes by lia.
        rewrite bind_lift_Return.
        match goal with |- context [sendall ?d ?w0] =>
          destruct (sendall_run d w0) as (w3 & Hsend & Hs3 & Ho3 & Hc3 & Hk3 & Ht3)
        end.
        exists w3. rewrite Hsend.
        cbn [outbox closed clock ticks set_ticks] in *.
        unfold stream in *. cbn [inbox set_ticks] in *.
        rewrite Hvals in Ho3. subst vals. rewrite Hk2, Hk1, Ht2, Ht1 in Ho3.
        repeat split; try congruence. rewrite Ht3, Ht2, Ht1. lia.
  - (* malformed length *)
    replace (len (x03 :: payload) =? 5) with false
      by (symmetry; apply Z.eqb_neq; unfold len in *; cbn [length]; lia).
    cbn [negb].
    rewrite build_exception_response_bytes by (unfold ILLEGAL_DATA_VALUE; lia).
    rewrite bind_lift_Return.
    destruct (sendall_run (frame t1 t0 p1 p0 u
                [byte_of_Z (Z.lor (byte_to_Z x03) 128); byte_of_Z ILLEGAL_DATA_VALUE]) w2)
      as (w3 & Hsend & Hs3 & Ho3 & Hc3 & Hk3 & Ht3).
    exists w3. rewrite Hsend.
    change (byte_of_Z (Z.lor (byte_to_Z x03) 128)) with x83 in Ho3.
    change (byte_of_Z ILLEGAL_DATA_VALUE) with x03 in Ho3.
    assert (Hpdu' : response_pdu (clock w (ticks w)) (x03 :: payload) = [x83; x03]
                    /\ samples_clock (x03 :: payload) = false).
    { destruct payload as [|a [|b [|c [|d [|e l]]]]]; cbn; auto.
      exfalso. apply Hbad. reflexivity. }
    destruct Hpdu' as [Hr Hc]. cbn [response_pdu] in Hr.
    change (byte_to_Z x03 =? 3) with true in Hr. cbv iota in Hr.
    rewrite Hc, Hr, Nat.add_0_r.
    repeat split; congruence.
Qed.

(* ------------------------------------------------------------------ *)
(** ** Requests that end the connection *)

(** Fewer than seven bytes before the peer closes: no header. *)
Lemma handle_request_short_header (w : world) :
  len (stream w) < 7 ->
  exists w',
    handle_request w = (Raise closed_while_receiving, w') /\
    stream w' = [] /\ same_env w w'.
Proof.
  intros Hshort.
  destruct (@recv_exact_short 7 w Hshort) as (w' & Hrun & Hs & Henv).
  exists w'. unfold handle_request. rewrite (bind_Raise Hrun). auto.
Qed.

(** A header whose length field leaves no PDU byte. *)
Lemma handle_request_empty_pdu (w : world) (t1 t0 p1 p0 l1 l0 u : byte)
    (rest : list byte) :
  stream w = [t1; t0; p1; p0; l1; l0; u] ++ rest ->
  struct.be16 l1 l0 <= 1 ->
  exists w',
    handle_request w = (Raise empty_pdu_received, w') /\
    stream w' = rest /\ same_env w w'.
Proof.
  intros Hstream Hlen.
  destruct (@recv_exact_prefix 7 w _ _ Hstream eq_refl) as (w1 & Hhdr & Hs1 & Henv1).
  assert (Hbody : len (@nil byte) = Z.max (struct.be16 l1 l0 - 1) 0)
    by (unfold len; cbn [length]; lia).
  destruct (@recv_exact_prefix _ w1 [] rest Hs1 Hbody) as (w2 & Hpdu & Hs2 & Henv2).
  exists w2. unfold handle_request.
  rewrite (bind_Return Hhdr). cbv beta.
  unfold parse_mbap_header, struct.unpack_HHHB.
  rewrite bind_lift_Return. cbv beta iota.
  rewrite (bind_Return Hpdu). cbn [is_empty].
  split; [reflexivity|]. split; [exact Hs2|].
  eapply same_env_trans; eassumption.
Qed.

(** A header announcing more PDU bytes than the peer delivers. *)
Lemma handle_request_short_body (w : world) (t1 t0 p1 p0 l1 l0 u : byte)
    (tail : list byte) :
  stream w = [t1; t0; p1; p0; l1; l0; u] ++ tail ->
  len tail < struct.be16 l1 l0 - 1 ->
  exists w',
    handle_request w = (Raise closed_while_receiving, w') /\
    stream w' = [] /\ same_env w w'.
Proof.
  intros Hstream Hlen.
  destruct (@recv_exact_prefix 7 w _ _ Hstream eq_refl) as (w1 & Hhdr & Hs1 & Henv1).
  rewrite <- Hs1 in Hlen.
  destruct (recv_exact_short _ w1 Hlen) as (w2 & Hpdu & Hs2 & Henv2).
  exists w2. unfold handle_request.
  rewrite (bind_Return Hhdr). cbv beta.
  unfold parse_mbap_header, struct.unpack_HHHB.
  rewrite bind_lift_Return. cbv beta iota.
  rewrite (bind_Raise Hpdu).
  split; [reflexivity|]. split; [exact Hs2|].
  eapply same_env_trans; eassumption.
Qed.

Lemma stream_head_cases (s : list byte) : stream_head s.
Proof.
  destruct s as [|t1 [|t0 [|p1 [|p0 [|l1 [|l0 [|u tail]]]]]]];
    try (apply head_no_header; unfold len; cbn [length]; lia).
  destruct (Z_le_gt_dec (struct.be16 l1 l0) 1) as [Hle|Hgt].
  { eapply head_empty_pdu; [reflexivity|exact Hle]. }
  destruct (Z_lt_ge_dec (len tail) (struct.be16 l1 l0 - 1)) as [Hlt|Hge].
  { eapply head_truncated; [reflexivity|exact Hlt]. }
  set (k := Z.to_nat (struct.be16 l1 l0 - 1)).
  assert (Hk : (k <= length tail)%nat) by (unfold len in Hge; lia).
  pose proof (firstn_skipn k tail) as Hsplit.
  pose proof (length_firstn k tail) as Hfl.
  destruct (firstn k tail) as [|fc payload] eqn:Hf.
  { cbn [length] in Hfl. lia. }
  eapply head_frame with (fc := fc) (payload := payload) (rest := skipn k tail).
  - rewrite Hsplit. reflexivity.
  - cbn [length] in Hfl. unfold len. lia.
Qed.

Lemma app_one_neq {A : Type} (l : list A) (x : A) : l <> l ++ [x].
Proof.
  intros H. apply (f_equal (@length A)) in H.
  rewrite length_app in H. cbn [length] in H. lia.
Qed.

(** Whatever the handler sends in one pass is the answer to a whole frame
    with a non-empty PDU at the head of the stream. *)
Lemma handle_request_response (w : world) (resp : list byte) :
  outbox (snd (handle_request w)) = outbox w ++ [resp] ->
  exists t1 t0 p1 p0 l1 l0 u fc payload rest,
    stream w = [t1; t0; p1; p0; l1; l0; u] ++ (fc :: payload) ++ rest /\
    struct.be16 l1 l0 = 2 + len payload /\
    resp = frame t1 t0 p1 p0 u (response_pdu (clock w (ticks w)) (fc :: payload)).
Proof.
  intros Hout.
  destruct (stream_head_cases (stream w))
    as [Hshort | t1 t0 p1 p0 l1 l0 u rest Hs Hl
        | t1 t0 p1 p0 l1 l0 u tail Hs Hl
        | t1 t0 p1 p0 l1 l0 u fc payload rest Hs Hl].
  - destruct (handle_request_short_header w Hshort) as (w' & Hrun & _ & (Ho & _)).
    rewrite Hrun in Hout. cbn [snd] in Hout. rewrite Ho in Hout.
    now apply app_one_neq in Hout.
  - destruct (handle_request_empty_pdu w _ _ _ _ _ _ _ _ Hs Hl) as (w' & Hrun & _ & (Ho & _)).
    rewrite Hrun in Hout. cbn [snd] in Hout. rewrite Ho in Hout.
    now apply app_one_neq in Hout.
  - destruct (handle_request_short_body w _ _ _ _ _ _ _ _ Hs Hl) as (w' & Hrun & _ & (Ho & _)).
    rewrite Hrun in Hout. cbn [snd] in Hout. rewrite Ho in Hout.
    now apply app_one_neq in Hout.
  - destruct (handle_request_serves w _ _ _ _ _ _ _ _ _ _ Hs Hl) as (w' & Hrun & _ & Ho & _).
    rewrite Hrun in Hout. cbn [snd] in Hout. rewrite Ho in Hout.
    apply app_inv_head in Hout. injection Hout as Hresp.
    exists t1, t0, p1, p0, l1, l0, u, fc, payload, rest. auto.
Qed.

(** A pass of the handler either serves a request or raises
    [ConnectionError]: no [struct.error] or [IndexError] escapes, and the
    receive loops never exhaust their budget. *)
Lemma handle_request_total (w : world) :
  fst (handle_request w) = Return tt \/
  exists msg, fst (handle_request w) = Raise (ConnectionError msg).
Proof.
  destruct (stream_head_cases (stream w))
    as [Hshort | t1 t0 p1 p0 l1 l0 u rest Hs Hl
        | t1 t0 p1 p0 l1 l0 u tail Hs Hl
        | t1 t0 p1 p0 l1 l0 u fc payload rest Hs Hl].
  - destruct (handle_request_short_header w Hshort) as (w' & -> & _).
    right. eexists. reflexivity.
  - destruct (handle_request_empty_pdu w _ _ _ _ _ _ _ _ Hs Hl) as (w' & -> & _).
    right. eexists. reflexivity.
  - destruct (handle_request_short_body w _ _ _ _ _ _ _ _ Hs Hl) as (w' & -> & _).
    right. eexists. reflexivity.
  - destruct (handle_request_serves w _ _ _ _ _ _ _ _ _ _ Hs Hl) as (w' & -> & _).
    left. reflexivity.
Qed.

(** The response PDU is never longer than a normal response to a read of
    six registers. *)
Lemma response_pdu_length (now : datetime) (pdu : list byte) :
  len (response_pdu now pdu) <= 14.
Proof.
  unfold response_pdu.
  destruct pdu as [|fc payload]; [unfold len; cbn; lia|].
  destruct (byte_to_Z fc =? 3); [|unfold len; cbn; lia].
  destruct payload as [|s1 [|s0 [|q1 [|q0 [|e l]]]]]; try (unfold len; cbn; lia).
  destruct ((struct.be16 q1 q0 <? 1) || (struct.be16 q1 q0 >? 125));
    [unfold len; cbn; lia|].
  destruct (struct.be16 s1 s0 + struct.be16 q1 q0 >? 6); [unfold len; cbn; lia|].
  unfold len. rewrite length_app. cbn [length].
  pose proof (length_register_bytes
                (firstn (Z.to_nat (struct.be16 q1 q0))
                   (skipn (Z.to_nat (struct.be16 s1 s0)) (registers_of now)))) as Hr.
  unfold len in Hr.
  rewrite length_firstn, length_skipn in Hr.
  cbn [length registers_of] in Hr. lia.
Qed.

(* ------------------------------------------------------------------ *)
(** ** The connection loop *)

(** The loop ends with a transport error once the stream is exhausted; a
    budget of one pass per seven bytes of input, plus one, is enough. *)
Lemma serve_loop_ends (fuel : nat) :
  forall w : world,
    len (stream w) < 7 * Z.of_nat fuel ->
    exists e w',
      serve_loop fuel w = (Raise e, w') /\ is_transport_error e = true /\
      closed w' = closed w.
Proof.
  induction fuel as [|fuel IH]; intros w Hfuel.
  - unfold len in Hfuel. lia.
  - cbn [serve_loop].
    destruct (stream_head_cases (stream w))
      as [Hshort | t1 t0 p1 p0 l1 l0 u rest Hs Hl
          | t1 t0 p1 p0 l1 l0 u tail Hs Hl
          | t1 t0 p1 p0 l1 l0 u fc payload rest Hs Hl].
    + destruct (handle_request_short_header w Hshort) as (w' & Hrun & _ & (_ & Hc & _)).
      exists closed_while_receiving, w'. rewrite (bind_Raise Hrun). auto.
    + destruct (handle_request_empty_pdu w _ _ _ _ _ _ _ _ Hs Hl)
        as (w' & Hrun & _ & (_ & Hc & _)).
      exists empty_pdu_received, w'. rewrite (bind_Raise Hrun). auto.
    + destruct (handle_request_short_body w _ _ _ _ _ _ _ _ Hs Hl)
        as (w' & Hrun & _ & (_ & Hc & _)).
      exists closed_while_receiving, w'. rewrite (bind_Raise Hrun). auto.
    + destruct (handle_request_serves w _ _ _ _ _ _ _ _ _ _ Hs Hl)
        as (w1 & Hrun & Hs1 & _ & Hc1 & _).
      rewrite (bind_Return Hrun).
      destruct (IH w1) as (e & w' & Hloop & He & Hc).
      { rewrite Hs1. rewrite Hs in Hfuel. unfold len in *.
        rewrite !length_app in Hfuel. cbn [length] in Hfuel. lia. }
      exists e, w'. rewrite Hloop. repeat split; congruence.
Qed.

(** [handle_client] always returns, with the socket closed. *)
Lemma handle_client_returns (fuel : nat) (w : world) :
  len (stream w) < 7 * Z.of_nat fuel ->
  exists w', handle_client fuel w = (Return tt, w') /\ closed w' = true.
Proof.
  intros Hfuel.
  destruct (serve_loop_ends fuel w Hfuel) as (e & w1 & Hloop & He & _).
  unfold handle_client, try_finally, try_except. rewrite Hloop, He.
  eexists. split; reflexivity.
Qed.

(* ================================================================== *)
(** * The specification's claims *)

(** A register written by [register_bytes] reads back as the value masked
    to 16 bits. *)
Lemma register_bytes_decode (v : Z) :
  exists hi lo,
    register_bytes v = [hi; lo] /\ struct.be16 hi lo = Z.land v 0xFFFF.
Proof.
  unfold register_bytes. eexists _, _. split; [reflexivity|].
  apply (be16_pack_H _ (land_0xFFFF_range v)).
Qed.

(** C1. A read request (function 0x03, PDU of exactly 5 bytes) with
    1 <= quantity <= 125, 0 <= start and start + quantity <= 6 is answered
    with a normal response: the echoed header, then the PDU
    [0x03, byteCount] followed by the register bytes, where
    byteCount = 2 * quantity and the registers are the values that
    [read_clock_registers start quantity] returns, in order, each masked
    with 0xFFFF and written as two bytes, most significant first. *)
Theorem fc3_normal_response (w : world)
    (t1 t0 p1 p0 l1 l0 u s1 s0 q1 q0 : byte) (rest : list byte) :
  stream w = [t1; t0; p1; p0; l1; l0; u] ++ [x03; s1; s0; q1; q0] ++ rest ->
  struct.be16 l1 l0 = 6 ->
  1 <= struct.be16 q1 q0 <= 125 ->
  0 <= struct.be16 s1 s0 ->
  struct.be16 s1 s0 + struct.be16 q1 q0 <= 6 ->
  exists vals w',
    fst (read_clock_registers (struct.be16 s1 s0) (struct.be16 q1 q0) w)
      = Return vals /\
    handle_request w = (Return tt, w') /\
    outbox w' = outbox w ++
      [[t1; t0; p1; p0; x00; byte_of_Z (3 + 2 * struct.be16 q1 q0); u]
       ++ [x03; byte_of_Z (2 * struct.be16 q1 q0)]
       ++ flat_map register_bytes vals] /\
    byte_to_Z (byte_of_Z (2 * struct.be16 q1 q0)) = 2 * struct.be16 q1 q0 /\
    len (flat_map register_bytes vals) = 2 * struct.be16 q1 q0 /\
    len vals = struct.be16 q1 q0 /\
    (forall v, In v vals ->
       exists hi lo,
         register_bytes v = [hi; lo] /\ struct.be16 hi lo = Z.land v 0xFFFF).
Proof.
  intros Hstream Hlen Hqty Hstart Haddr.
  set (start := struct.be16 s1 s0) in *. set (qty := struct.be16 q1 q0) in *.
  set (vals := firstn (Z.to_nat qty)
                 (skipn (Z.to_nat start) (registers_of (clock w (ticks w))))).
  assert (Hvals : len vals = qty).
  { unfold vals, len. rewrite length_firstn, length_skipn.
    cbn [length registers_of]. lia. }
  destruct (handle_request_serves w t1 t0 p1 p0 l1 l0 u x03 [s1; s0; q1; q0] rest
              Hstream Hlen) as (w' & Hrun & _ & Hout & _).
  exists vals, w'. split; [|split; [exact Hrun|split; [|split; [|split; [|split]]]]].
  - rewrite read_clock_registers_run. cbn [fst].
    replace ((start <? 0) || (start + qty >? 6)) with false.
    + rewrite py_slice_in_range
        by (try (unfold len; cbn [length registers_of]); lia).
      reflexivity.
    + symmetry. apply orb_false_intro; [apply Z.ltb_ge; lia|].
      rewrite Z.gtb_ltb. apply Z.ltb_ge. lia.
  - rewrite Hout. f_equal. f_equal.
    cbn [response_pdu]. change (byte_to_Z x03 =? 3) with true. cbv iota.
    fold start qty.
    replace ((qty <? 1) || (qty >? 125)) with false
      by (symmetry; apply orb_false_intro;
          [apply Z.ltb_ge; lia | rewrite Z.gtb_ltb; apply Z.ltb_ge; lia]).
    replace (start + qty >? 6) with false
      by (symmetry; rewrite Z.gtb_ltb; apply Z.ltb_ge; lia).
    fold vals. unfold frame.
    pose proof (length_register_bytes vals) as Hregs.
    replace (1 + len ([x03; byte_of_Z (2 * qty)] ++ flat_map register_bytes vals))
      with (3 + 2 * qty)
      by (unfold len in *; rewrite length_app; cbn [length]; lia).
    rewrite Z.div_small, Z.mod_small by lia. reflexivity.
  - rewrite byte_to_of_Z. apply Z.mod_small. lia.
  - rewrite length_register_bytes. lia.
  - exact Hvals.
  - intros v _. apply register_bytes_decode.
Qed.

(** A read of two registers from address 3, delivered in two segments. *)
Lemma fc3_normal_response_witness :
  exists vals w',
    fst (read_clock_registers (struct.be16 x00 x03) (struct.be16 x00 x02)
           (connection [(x00, [x07; x00]); (x00, [x00; x06; x11; x03; x00; x03; x00; x02])]))
      = Return vals /\
    handle_request
      (connection [(x00, [x07; x00]); (x00, [x00; x06; x11; x03; x00; x03; x00; x02])])
      = (Return tt, w') /\
    outbox w' = [] ++
      [[x00; x07; x00; x00; x00; byte_of_Z (3 + 2 * struct.be16 x00 x02); x11]
       ++ [x03; byte_of_Z (2 * struct.be16 x00 x02)]
       ++ flat_map register_bytes vals] /\
    byte_to_Z (byte_of_Z (2 * struct.be16 x00 x02)) = 2 * struct.be16 x00 x02 /\
    len (flat_map register_bytes vals) = 2 * struct.be16 x00 x02 /\
    len vals = struct.be16 x00 x02 /\
    (forall v, In v vals ->
       exists hi lo,
         register_bytes v = [hi; lo] /\ struct.be16 hi lo = Z.land v 0xFFFF).
Proof.
  apply (fc3_normal_response
           (connection [(x00, [x07; x00]); (x00, [x00; x06; x11; x03; x00; x03; x00; x02])])
           x00 x07 x00 x00 x00 x06 x11 x00 x03 x00 x02 []).
  - reflexivity.
  - reflexivity.
  - change (struct.be16 x00 x02) with 2. lia.
  - change (struct.be16 x00 x03) with 3. lia.
  - change (struct.be16 x00 x03) with 3. change (struct.be16 x00 x02) with 2. lia.
Defined.

(** C2. For a PDU with function code 0x03 the checks are applied in the
    order length, quantity, address: the exception response carries the
    code of the first check the request violates in that order (0x03 for
    the length and the quantity, 0x02 for the address range). *)
Theorem fc3_first_violated_check_decides (w : world)
    (t1 t0 p1 p0 l1 l0 u : byte) (payload rest : list byte) (c : check) :
  stream w = [t1; t0; p1; p0; l1; l0; u] ++ (x03 :: payload) ++ rest ->
  struct.be16 l1 l0 = 2 + len payload ->
  first_violated (x03 :: payload) = Some c ->
  exists w',
    handle_request w = (Return tt, w') /\
    outbox w' = outbox w ++
      [[t1; t0; p1; p0; x00; x03; u] ++ [x83; exception_code c]].
Proof.
  intros Hstream Hlen Hfirst.
  destruct (handle_request_serves w t1 t0 p1 p0 l1 l0 u x03 payload rest
              Hstream Hlen) as (w' & Hrun & _ & Hout & _).
  exists w'. split; [exact Hrun|]. rewrite Hout. f_equal. f_equal.
  assert (Hpdu : response_pdu (clock w (ticks w)) (x03 :: payload)
                 = [x83; exception_code c]); [|rewrite Hpdu; reflexivity].
  cbn [response_pdu]. change (byte_to_Z x03 =? 3) with true. cbv iota.
  unfold first_violated in Hfirst. cbn [find violates] in Hfirst.
  destruct (length_payload_cases payload) as [(s1 & s0 & q1 & q0 & ->)|Hbad].
  - change (len [x03; s1; s0; q1; q0] =? 5) with true in Hfirst.
    cbn [negb] in Hfirst.
    change (request_quantity [x03; s1; s0; q1; q0]) with (struct.be16 q1 q0) in Hfirst.
    change (request_start [x03; s1; s0; q1; q0]) with (struct.be16 s1 s0) in Hfirst.
    destruct ((struct.be16 q1 q0 <? 1) || (struct.be16 q1 q0 >? 125)).
    + injection Hfirst as <-. reflexivity.
    + pose proof (be16_range s1 s0) as Hs.
      replace (struct.be16 s1 s0 <? 0) with false in Hfirst
        by (symmetry; apply Z.ltb_ge; lia).
      cbn [orb] in Hfirst.
      destruct (struct.be16 s1 s0 + struct.be16 q1 q0 >? 6); [|discriminate].
      injection Hfirst as <-. reflexivity.
  - replace (len (x03 :: payload) =? 5) with false in Hfirst
      by (symmetry; apply Z.eqb_neq; unfold len in *; cbn [length]; lia).
    cbn [negb] in Hfirst. injection Hfirst as <-. cbn [exception_code].
    destruct payload as [|a [|b [|c [|d [|e l]]]]]; try reflexivity.
    exfalso. apply Hbad. reflexivity.
Qed.

(** A request that breaks all three rules at once: six PDU bytes, quantity
    0 and start 0xFFFF. The length check comes first. *)
Lemma fc3_first_violated_check_decides_witness :
  first_violated [x03; xff; xff; x00; x00; x00] = Some LengthCheck /\
  violates [x03; xff; xff; x00; x00; x00] QuantityCheck = true /\
  violates [x03; xff; xff; x00; x00; x00] AddressCheck = true /\
  exists w',
    handle_request
      (connection [(x00, [x01; x00; x00; x00; x07; x01; x03; xff; xff; x00; x00; x00])])
      = (Return tt, w') /\
    outbox w' = [] ++ [[x00; x01; x00; x00; x00; x03; x01] ++ [x83; x03]].
Proof.
  split; [reflexivity|]. split; [reflexivity|]. split; [reflexivity|].
  apply (fc3_first_violated_check_decides
           (connection [(x00, [x01; x00; x00; x00; x07; x01; x03; xff; xff; x00; x00; x00])])
           x00 x01 x00 x00 x00 x07 x01 [xff; xff; x00; x00; x00] [] LengthCheck).
  - reflexivity.
  - reflexivity.
  - reflexivity.
Defined.

(** C3. Whenever a pass of the handler sends a response, normal or
    exception, the transaction, protocol and unit bytes of the response are
    those of the request header: both frames decode to the same
    [transaction_id], [protocol_id] and [unit_id]. *)
Theorem response_echoes_header (w : world) (resp : list byte) :
  outbox (snd (handle_request w)) = outbox w ++ [resp] ->
  firstn 4 resp = firstn 4 (stream w) /\
  nth_error resp 6 = nth_error (stream w) 6 /\
  exists tid pid uid req_length resp_length,
    parse_mbap_header (firstn 7 (stream w)) = Return (tid, pid, req_length, uid) /\
    parse_mbap_header (firstn 7 resp) = Return (tid, pid, resp_length, uid).
Proof.
  intros Hout.
  destruct (handle_request_response w resp Hout)
    as (t1 & t0 & p1 & p0 & l1 & l0 & u & fc & payload & rest & Hs & _ & ->).
  rewrite Hs. unfold frame. cbn [app firstn nth_error].
  split; [reflexivity|]. split; [reflexivity|].
  eexists _, _, _, _, _. split; reflexivity.
Qed.

Lemma response_echoes_header_witness :
  firstn 4 [x12; x34; x00; x09; x00; x03; x2a; x84; x01]
    = firstn 4 (stream (connection [(x12, [x34; x00; x09; x00; x02; x2a; x04])])) /\
  nth_error [x12; x34; x00; x09; x00; x03; x2a; x84; x01] 6
    = nth_error (stream (connection [(x12, [x34; x00; x09; x00; x02; x2a; x04])])) 6 /\
  exists tid pid uid req_length resp_length,
    parse_mbap_header
      (firstn 7 (stream (connection [(x12, [x34; x00; x09; x00; x02; x2a; x04])])))
      = Return (tid, pid, req_length, uid) /\
    parse_mbap_header (firstn 7 [x12; x34; x00; x09; x00; x03; x2a; x84; x01])
      = Return (tid, pid, resp_length, uid).
Proof.
  apply (response_echoes_header
           (connection [(x12, [x34; x00; x09; x00; x02; x2a; x04])])
           [x12; x34; x00; x09; x00; x03; x2a; x84; x01]).
  vm_compute. reflexivity.
Defined.

Lemma pack_HHHB_unpack (a b c d : Z) (m : list byte) :
  struct.pack_HHHB a b c d = Return m ->
  length m = 7%nat /\ struct.unpack_HHHB m = Return (a, b, c, d).
Proof.
  unfold struct.pack_HHHB, struct.pack_H, struct.pack_B.
  destruct ((0 <=? a) && (a <=? 65535)) eqn:Ha; [|discriminate].
  destruct ((0 <=? b) && (b <=? 65535)) eqn:Hb; [|discriminate].
  destruct ((0 <=? c) && (c <=? 65535)) eqn:Hc; [|discriminate].
  destruct ((0 <=? d) && (d <=? 255)) eqn:Hd; [|discriminate].
  cbn [struct.and_then rbind app]. intros [= <-].
  apply andb_prop in Ha, Hb, Hc, Hd.
  rewrite !Z.leb_le in Ha, Hb, Hc, Hd.
  split; [reflexivity|]. cbn [struct.unpack_HHHB].
  destruct (be16_pack_H a ltac:(lia)) as [_ ->].
  destruct (be16_pack_H b ltac:(lia)) as [_ ->].
  destruct (be16_pack_H c ltac:(lia)) as [_ ->].
  rewrite byte_to_of_Z, Z.mod_small by lia. reflexivity.
Qed.

Lemma length_field_of_pack (a b d : Z) (m pdu : list byte) :
  struct.pack_HHHB a b (1 + len pdu) d = Return m ->
  length_field_ok (m ++ pdu).
Proof.
  intros Hm. apply pack_HHHB_unpack in Hm. destruct Hm as [Hl Hu].
  exists a, b, d. unfold parse_mbap_header.
  rewrite firstn_app, skipn_app, Hl, Nat.sub_diag, firstn_all2, skipn_all2 by lia.
  cbn [firstn skipn app]. rewrite app_nil_r. exact Hu.
Qed.

Lemma build_exception_response_length (tid pid uid function ex_code : Z)
    (fr : list byte) :
  build_exception_response tid pid uid function ex_code = Return fr ->
  length_field_ok fr.
Proof.
  unfold build_exception_response.
  destruct (struct.pack_BB (Z.lor function 128) ex_code) as [pdu| |];
    cbn [rbind]; try discriminate.
  destruct (struct.pack_HHHB tid pid (1 + len pdu) uid) as [m| |] eqn:Hm;
    cbn [rbind]; try discriminate.
  intros [= <-]. eapply length_field_of_pack; eassumption.
Qed.

Lemma build_fc3_response_length (tid pid uid : Z) (values : list Z)
    (fr : list byte) :
  build_fc3_response tid pid uid values = Return fr ->
  length_field_ok fr.
Proof.
  unfold build_fc3_response.
  destruct (struct.pack_BB 3 (len values * 2)) as [pdu_header| |];
    cbn [rbind]; try discriminate.
  destruct (pack_registers values) as [regs| |]; cbn [rbind]; try discriminate.
  destruct (struct.pack_HHHB tid pid (1 + len (pdu_header ++ regs)) uid)
    as [m| |] eqn:Hm; cbn [rbind]; try discriminate.
  intros [= <-]. eapply length_field_of_pack; eassumption.
Qed.

Lemma frame_length_field_ok (t1 t0 p1 p0 u : byte) (pdu : list byte) :
  1 + len pdu <= 65535 ->
  length_field_ok (frame t1 t0 p1 p0 u pdu).
Proof.
  intros Hl.
  apply (length_field_of_pack (struct.be16 t1 t0) (struct.be16 p1 p0) (byte_to_Z u)
           [t1; t0; p1; p0; byte_of_Z ((1 + len pdu) / 256);
            byte_of_Z ((1 + len pdu) mod 256); u] pdu).
  apply pack_HHHB_echo. unfold len in *. lia.
Qed.

(** C4. Every frame the server emits, normal or exception response, has an
    MBAP length field equal to 1 + len(PDU): the unit byte plus the PDU
    after the seven header bytes. *)
Theorem emitted_length_field (fr : list byte) :
  emitted fr -> length_field_ok fr.
Proof.
  intros [tid pid uid function ex_code H | tid pid uid values H | w H].
  - eapply build_exception_response_length; eassumption.
  - eapply build_fc3_response_length; eassumption.
  - destruct (handle_request_response w fr H)
      as (t1 & t0 & p1 & p0 & l1 & l0 & u & fc & payload & rest & _ & _ & ->).
    apply frame_length_field_ok.
    pose proof (response_pdu_length (clock w (ticks w)) (fc :: payload)). lia.
Qed.

(** The normal response to a read of the six registers: length field 15,
    PDU of 14 bytes. *)
Lemma emitted_length_field_witness :
  length_field_ok
    [x00; x01; x00; x00; x00; x0f; x01; x03; x0c; x00; x0f; x00; x06; x07; xe9;
     x00; x0d; x00; x2d; x00; x1e].
Proof.
  apply (emitted_length_field
           [x00; x01; x00; x00; x00; x0f; x01; x03; x0c; x00; x0f; x00; x06; x07; xe9;
            x00; x0d; x00; x2d; x00; x1e]).
  apply (emitted_fc3 _ 1 0 1 [15; 6; 2025; 13; 45; 30]).
  vm_compute. reflexivity.
Defined.

(** C5. A non-empty PDU whose function code is not 0x03 is answered,
    whatever its payload and its length, with the two-byte exception PDU
    [function | 0x80, 0x01]; the clock is not read. *)
Theorem other_function_illegal (w : world)
    (t1 t0 p1 p0 l1 l0 u fc : byte) (payload rest : list byte) :
  stream w = [t1; t0; p1; p0; l1; l0; u] ++ (fc :: payload) ++ rest ->
  struct.be16 l1 l0 = 2 + len payload ->
  byte_to_Z fc <> 0x03 ->
  exists w',
    handle_request w = (Return tt, w') /\
    outbox w' = outbox w ++
      [[t1; t0; p1; p0; x00; x03; u]
       ++ [byte_of_Z (Z.lor (byte_to_Z fc) 0x80); x01]] /\
    byte_to_Z (byte_of_Z (Z.lor (byte_to_Z fc) 0x80)) = Z.lor (byte_to_Z fc) 0x80 /\
    ticks w' = ticks w /\
    stream w' = rest.
Proof.
  intros Hstream Hlen Hfc.
  destruct (handle_request_serves w t1 t0 p1 p0 l1 l0 u fc payload rest
              Hstream Hlen) as (w' & Hrun & Hrest & Hout & _ & _ & Hticks).
  apply Z.eqb_neq in Hfc.
  exists w'. split; [exact Hrun|]. split; [|split; [|split; [|exact Hrest]]].
  - rewrite Hout. cbn [response_pdu]. rewrite Hfc. reflexivity.
  - rewrite byte_to_of_Z. apply Z.mod_small.
    pose proof (lor_0x80_range fc). lia.
  - rewrite Hticks.
    replace (samples_clock (fc :: payload)) with false; [lia|].
    destruct payload as [|a [|b [|c [|d [|e l]]]]]; cbn [samples_clock];
      try reflexivity.
    rewrite Hfc. reflexivity.
Qed.

(** Function 0x10 (write multiple registers) with a seven-byte payload that
    arrives in two segments. *)
Lemma other_function_illegal_witness :
  exists w',
    handle_request
      (connection [(x00, [x02; x00; x00; x00; x09; x01; x10; x00; x00; x00; x01; x02; xab]);
                   (xcd, [])])
      = (Return tt, w') /\
    outbox w' = [] ++
      [[x00; x02; x00; x00; x00; x03; x01]
       ++ [byte_of_Z (Z.lor (byte_to_Z x10) 0x80); x01]] /\
    byte_to_Z (byte_of_Z (Z.lor (byte_to_Z x10) 0x80)) = Z.lor (byte_to_Z x10) 0x80 /\
    ticks w' = 0%nat /\
    stream w' = [].
Proof.
  apply (other_function_illegal
           (connection [(x00, [x02; x00; x00; x00; x09; x01; x10; x00; x00; x00; x01; x02; xab]);
                        (xcd, [])])
           x00 x02 x00 x00 x00 x09 x01 x10 [x00; x00; x00; x01; x02; xab; xcd] []).
  - reflexivity.
  - reflexivity.
  - vm_compute. discriminate.
Defined.

(** C6, as amended. [read_clock_registers start count] raises [IndexError]
    exactly when start < 0 or start + count > 6. When it does not and
    count >= 0, it returns exactly [count] values: the elements at indices
    start .. start + count - 1 of the bank
    [day, month, year, hour, minute, second] that the clock shows at the
    call. The clock is sampled once per call, whether the read fails or not. *)
Theorem read_clock_registers_contract (start count : Z) (w : world) :
  (fst (read_clock_registers start count w) = Raise illegal_range
   <-> start < 0 \/ start + count > 6) /\
  (0 <= count -> ~ (start < 0 \/ start + count > 6) ->
   exists vals,
     fst (read_clock_registers start count w) = Return vals /\
     len vals = count /\
     forall i, 0 <= i < count ->
       nth_error vals (Z.to_nat i)
       = nth_error (registers_of (clock w (ticks w))) (Z.to_nat (start + i))) /\
  ticks (snd (read_clock_registers start count w)) = S (ticks w).
Proof.
  rewrite read_clock_registers_run. cbn [fst snd ticks set_ticks].
  split; [|split; [|reflexivity]].
  - destruct ((start <? 0) || (start + count >? 6)) eqn:E.
    + split; [intros _|reflexivity].
      apply orb_prop in E. rewrite Z.gtb_ltb, !Z.ltb_lt in E. lia.
    + split; [discriminate|]. intros H.
      apply orb_false_elim in E. rewrite Z.gtb_ltb, !Z.ltb_ge in E. lia.
  - intros Hcount Hok.
    replace ((start <? 0) || (start + count >? 6)) with false
      by (symmetry; apply orb_false_intro;
          [apply Z.ltb_ge; lia | rewrite Z.gtb_ltb; apply Z.ltb_ge; lia]).
    rewrite py_slice_in_range
      by (try (unfold len; cbn [length registers_of]); lia).
    eexists. split; [reflexivity|]. split.
    + unfold len. rewrite length_firstn, length_skipn.
      cbn [length registers_of]. lia.
    + intros i Hi.
      rewrite nth_error_firstn.
      replace (Z.to_nat i <? Z.to_nat count)%nat with true
        by (symmetry; apply Nat.ltb_lt; lia).
      rewrite nth_error_skipn. f_equal. lia.
Qed.

(** Two registers from address 3: hour and minute. *)
Lemma read_clock_registers_contract_witness :
  exists vals,
    fst (read_clock_registers 3 2 (connection [])) = Return vals /\
    len vals = 2 /\
    forall i, 0 <= i < 2 ->
      nth_error vals (Z.to_nat i)
      = nth_error (registers_of mock_now) (Z.to_nat (3 + i)).
Proof.
  destruct (read_clock_registers_contract 3 2 (connection [])) as (_ & Hread & _).
  apply Hread; lia.
Defined.

(** C6 as stated fails for a negative count: the call below raises nothing
    and returns no value at all, not [count] values. *)
Lemma read_negative_count_counterexample :
  ~ (3 < 0 \/ 3 + -2 > 6) /\
  fst (read_clock_registers 3 (-2) (connection [])) = Return [] /\
  len (@nil Z) <> -2.
Proof.
  split; [lia|]. split; [reflexivity|]. unfold len. cbn [length]. lia.
Qed.

(** With a negative count whose end index is itself negative, Python's
    slice counts the end from the right and the call returns a register. *)
Example read_negative_end_returns_year :
  fst (read_clock_registers 2 (-5) (connection [])) = Return [2025].
Proof. reflexivity. Qed.

(** C7. A frame whose header leaves no PDU byte (length field 0 or 1) is a
    transport error: the pass raises [ConnectionError], nothing is sent,
    and [handle_client] returns with the socket closed. *)
Theorem empty_pdu_ends_connection (w : world) (t1 t0 p1 p0 l1 l0 u : byte)
    (rest : list byte) (fuel : nat) :
  stream w = [t1; t0; p1; p0; l1; l0; u] ++ rest ->
  struct.be16 l1 l0 < 1 \/ struct.be16 l1 l0 - 1 = 0 ->
  (exists w1,
     handle_request w = (Raise (ConnectionError "Empty PDU received"), w1) /\
     outbox w1 = outbox w) /\
  (exists w',
     handle_client (S fuel) w = (Return tt, w') /\
     closed w' = true /\
     outbox w' = outbox w /\
     stream w' = rest).
Proof.
  intros Hstream Hlen.
  destruct (handle_request_empty_pdu w t1 t0 p1 p0 l1 l0 u rest Hstream ltac:(lia))
    as (w1 & Hrun & Hrest & (Ho & _)).
  split.
  - exists w1. split; [exact Hrun|exact Ho].
  - unfold handle_client, try_finally, try_except. cbn [serve_loop].
    rewrite (bind_Raise Hrun). cbn [empty_pdu_received is_transport_error ret close].
    eexists. split; [reflexivity|].
    unfold stream in *. cbn. auto.
Qed.

(** A header with length field 0, followed by two stray bytes. *)
Lemma empty_pdu_ends_connection_witness :
  (exists w1,
     handle_request (connection [(x00, [x01; x00; x00; x00; x00; x01; x03; x00])])
       = (Raise (ConnectionError "Empty PDU received"), w1) /\
     outbox w1 = []) /\
  (exists w',
     handle_client 3 (connection [(x00, [x01; x00; x00; x00; x00; x01; x03; x00])])
       = (Return tt, w') /\
     closed w' = true /\
     outbox w' = [] /\
     stream w' = [x03; x00]).
Proof.
  apply (empty_pdu_ends_connection
           (connection [(x00, [x01; x00; x00; x00; x00; x01; x03; x00])])
           x00 x01 x00 x00 x00 x00 x01 [x03; x00] 2).
  - reflexivity.
  - left. vm_compute. reflexivity.
Defined.

(** The same with length field 1: only the unit byte is announced. *)
Example empty_pdu_length_one :
  outbox (snd (handle_client 3 (connection [(x00, [x01; x00; x00; x00; x01; x01])])))
  = [].
Proof. reflexivity. Qed.

(** C8. With the clock at 2025-06-15 13:45:30, the request frame
    00 01 00 00 00 06 01 03 00 00 00 06 is answered with exactly
    00 01 00 00 00 0F 01 03 0C 00 0F 00 06 07 E9 00 0D 00 2D 00 1E. *)
Theorem scenario_read_six_registers (w : world) (rest : list byte) :
  stream w = scenario_request ++ rest ->
  clock w (ticks w) = mock_now ->
  exists w',
    handle_request w = (Return tt, w') /\
    outbox w' = outbox w ++ [scenario_response] /\
    stream w' = rest.
Proof.
  intros Hstream Hclock.
  destruct (handle_request_serves w x00 x01 x00 x00 x00 x06 x01 x03
              [x00; x00; x00; x06] rest Hstream eq_refl)
    as (w' & Hrun & Hrest & Hout & _).
  exists w'. split; [exact Hrun|]. split; [|exact Hrest].
  rewrite Hout, Hclock. reflexivity.
Qed.

Lemma scenario_read_six_registers_witness :
  exists w',
    handle_request (connection [(x00, [x01; x00; x00; x00; x06; x01; x03]);
                                (x00, [x00; x00; x06])])
      = (Return tt, w') /\
    outbox w' = [] ++ [scenario_response] /\
    stream w' = [].
Proof.
  apply (scenario_read_six_registers
           (connection [(x00, [x01; x00; x00; x00; x06; x01; x03]);
                        (x00, [x00; x00; x06])]) []).
  - reflexivity.
  - reflexivity.
Defined.

(** C9. The protocol identifier is only echoed. Two connections whose next
    bytes differ in nothing but the protocol identifier, zero or not, get
    the same outcome from a pass of the handler: the same result, the same
    bytes left unread, the same number of clock samples, and either no
    response on both or two responses equal except for the echoed
    protocol identifier. *)
Theorem protocol_id_not_inspected (w1 w2 : world)
    (t1 t0 p1 p0 q1 q0 : byte) (tail : list byte) :
  stream w1 = t1 :: t0 :: p1 :: p0 :: tail ->
  stream w2 = t1 :: t0 :: q1 :: q0 :: tail ->
  clock w1 = clock w2 ->
  ticks w1 = ticks w2 ->
  fst (handle_request w1) = fst (handle_request w2) /\
  stream (snd (handle_request w1)) = stream (snd (handle_request w2)) /\
  ticks (snd (handle_request w1)) = ticks (snd (handle_request w2)) /\
  ((outbox (snd (handle_request w1)) = outbox w1 /\
    outbox (snd (handle_request w2)) = outbox w2)
   \/
   (exists r1 r0 u pdu,
      outbox (snd (handle_request w1))
        = outbox w1 ++ [[t1; t0; p1; p0; r1; r0; u] ++ pdu] /\
      outbox (snd (handle_request w2))
        = outbox w2 ++ [[t1; t0; q1; q0; r1; r0; u] ++ pdu])).
Proof.
  intros Hs1 Hs2 Hclock Hticks.
  destruct (stream_head_cases (stream w1))
    as [Hshort | a1 a0 b1 b0 l1 l0 u rest Hs Hl
        | a1 a0 b1 b0 l1 l0 u rest Hs Hl
        | a1 a0 b1 b0 l1 l0 u fc payload rest Hs Hl].
  - assert (Hshort2 : len (stream w2) < 7).
    { rewrite Hs1 in Hshort. rewrite Hs2. unfold len in *. cbn [length] in *. lia. }
    destruct (handle_request_short_header w1 Hshort)
      as (w1' & -> & Hr1 & (Ho1 & _ & _ & Ht1)).
    destruct (handle_request_short_header w2 Hshort2)
      as (w2' & -> & Hr2 & (Ho2 & _ & _ & Ht2)).
    cbn [fst snd]. repeat split; try congruence. left. auto.
  - rewrite Hs1 in Hs. injection Hs as -> -> -> -> ->.
    destruct (handle_request_empty_pdu w1 _ _ _ _ _ _ _ _ Hs1 Hl)
      as (w1' & -> & Hr1 & (Ho1 & _ & _ & Ht1)).
    destruct (handle_request_empty_pdu w2 _ _ _ _ _ _ _ _ Hs2 Hl)
      as (w2' & -> & Hr2 & (Ho2 & _ & _ & Ht2)).
    cbn [fst snd]. repeat split; try congruence. left. auto.
  - rewrite Hs1 in Hs. injection Hs as -> -> -> -> ->.
    destruct (handle_request_short_body w1 _ _ _ _ _ _ _ _ Hs1 Hl)
      as (w1' & -> & Hr1 & (Ho1 & _ & _ & Ht1)).
    destruct (handle_request_short_body w2 _ _ _ _ _ _ _ _ Hs2 Hl)
      as (w2' & -> & Hr2 & (Ho2 & _ & _ & Ht2)).
    cbn [fst snd]. repeat split; try congruence. left. auto.
  - rewrite Hs1 in Hs. injection Hs as -> -> -> -> ->.
    destruct (handle_request_serves w1 _ _ _ _ _ _ _ _ _ _ Hs1 Hl)
      as (w1' & -> & Hr1 & Ho1 & _ & _ & Ht1).
    destruct (handle_request_serves w2 _ _ _ _ _ _ _ _ _ _ Hs2 Hl)
      as (w2' & -> & Hr2 & Ho2 & _ & _ & Ht2).
    cbn [fst snd]. repeat split; try congruence. right.
    eexists _, _, u, _. rewrite Ho1, Ho2, Hclock, Hticks. unfold frame.
    split; reflexivity.
Qed.

(** The same illegal-function request with protocol identifier 0 and with
    protocol identifier 0xBEEF. *)
Lemma protocol_id_not_inspected_witness :
  fst (handle_request (connection [(x00, [x05; x00; x00; x00; x02; x09; x2b])]))
  = fst (handle_request (connection [(x00, [x05; xbe; xef; x00; x02; x09; x2b])])) /\
  stream (snd (handle_request (connection [(x00, [x05; x00; x00; x00; x02; x09; x2b])])))
  = stream (snd (handle_request (connection [(x00, [x05; xbe; xef; x00; x02; x09; x2b])]))) /\
  ticks (snd (handle_request (connection [(x00, [x05; x00; x00; x00; x02; x09; x2b])])))
  = ticks (snd (handle_request (connection [(x00, [x05; xbe; xef; x00; x02; x09; x2b])]))) /\
  ((outbox (snd (handle_request (connection [(x00, [x05; x00; x00; x00; x02; x09; x2b])])))
    = [] /\
    outbox (snd (handle_request (connection [(x00, [x05; xbe; xef; x00; x02; x09; x2b])])))
    = [])
   \/
   (exists r1 r0 u pdu,
      outbox (snd (handle_request (connection [(x00, [x05; x00; x00; x00; x02; x09; x2b])])))
        = [] ++ [[x00; x05; x00; x00; r1; r0; u] ++ pdu] /\
      outbox (snd (handle_request (connection [(x00, [x05; xbe; xef; x00; x02; x09; x2b])])))
        = [] ++ [[x00; x05; xbe; xef; r1; r0; u] ++ pdu])).
Proof.
  apply (protocol_id_not_inspected
           (connection [(x00, [x05; x00; x00; x00; x02; x09; x2b])])
           (connection [(x00, [x05; xbe; xef; x00; x02; x09; x2b])])
           x00 x05 x00 x00 xbe xef [x00; x02; x09; x2b]).
  - reflexivity.
  - reflexivity.
  - reflexivity.
  - reflexivity.
Defined.

(** A non-zero protocol identifier is not rejected: the request is served. *)
Example nonzero_protocol_id_served :
  outbox (snd (handle_request (connection [(x00, [x05; xbe; xef; x00; x02; x09; x2b])])))
  = [[x00; x05; xbe; xef; x00; x03; x09; xab; x01]].
Proof. reflexivity. Qed.

(** C10. A start address decoded from the wire is an unsigned 16-bit value,
    so it is never negative and the [start < 0] test of
    [read_clock_registers] never fires for a request from the network:
    every Illegal Data Address (0x02) exception that a pass of the handler
    sends answers a read request with start + quantity > 6. *)
Theorem illegal_address_means_past_end :
  (forall (buf : list byte) (start qty : Z),
     struct.unpack_HH buf = Return (start, qty) ->
     0 <= start <= 65535 /\ (start <? 0) = false) /\
  (forall (w : world) (resp : list byte) (ex_fc : byte),
     outbox (snd (handle_request w)) = outbox w ++ [resp] ->
     skipn 7 resp = [ex_fc; x02] ->
     exists t1 t0 p1 p0 l1 l0 u s1 s0 q1 q0 rest,
       stream w = [t1; t0; p1; p0; l1; l0; u] ++ [x03; s1; s0; q1; q0] ++ rest /\
       ex_fc = x83 /\
       0 <= struct.be16 s1 s0 /\
       struct.be16 s1 s0 + struct.be16 q1 q0 > 6).
Proof.
  split.
  - intros buf start qty Hbuf. unfold struct.unpack_HH in Hbuf.
    destruct buf as [|a1 [|a0 [|b1 [|b0 [|e l]]]]]; try discriminate.
    injection Hbuf as <- <-. pose proof (be16_range a1 a0) as Hr.
    split; [exact Hr|]. apply Z.ltb_ge. lia.
  - intros w resp ex_fc Hout Hpdu.
    destruct (handle_request_response w resp Hout)
      as (t1 & t0 & p1 & p0 & l1 & l0 & u & fc & payload & rest & Hs & Hl & ->).
    unfold frame in Hpdu. cbn [skipn app response_pdu] in Hpdu.
    destruct (byte_to_Z fc =? 3) eqn:Hfc; [|discriminate].
    apply Z.eqb_eq in Hfc.
    assert (Hx03 : fc = x03) by (apply byte_to_Z_inj; rewrite Hfc; reflexivity).
    subst fc.
    destruct payload as [|s1 [|s0 [|q1 [|q0 [|e l]]]]]; try discriminate.
    destruct ((struct.be16 q1 q0 <? 1) || (struct.be16 q1 q0 >? 125)) eqn:Hqty;
      [discriminate|].
    apply orb_false_elim in Hqty. destruct Hqty as [Hq1 _]. apply Z.ltb_ge in Hq1.
    pose proof (be16_range s1 s0) as Hstart.
    destruct (struct.be16 s1 s0 + struct.be16 q1 q0 >? 6) eqn:Haddr.
    + injection Hpdu as <-.
      exists t1, t0, p1, p0, l1, l0, u, s1, s0, q1, q0, rest.
      split; [exact Hs|]. split; [reflexivity|].
      rewrite Z.gtb_ltb in Haddr. apply Z.ltb_lt in Haddr. lia.
    + rewrite Z.gtb_ltb in Haddr. apply Z.ltb_ge in Haddr.
      cbn [app] in Hpdu. injection Hpdu as _ _ Hregs.
      apply (f_equal (@length byte)) in Hregs.
      pose proof (length_register_bytes
                    (firstn (Z.to_nat (struct.be16 q1 q0))
                       (skipn (Z.to_nat (struct.be16 s1 s0))
                          (registers_of (clock w (ticks w)))))) as Hlr.
      unfold len in Hlr. rewrite Hregs, length_firstn, length_skipn in Hlr.
      cbn [length registers_of] in Hlr. lia.
Qed.

(** The fourth scenario of the specification: start 4, quantity 5. *)
Lemma illegal_address_means_past_end_witness :
  (0 <= 4 <= 65535 /\ (4 <? 0) = false) /\
  (exists t1 t0 p1 p0 l1 l0 u s1 s0 q1 q0 rest,
     stream (connection [(x00, [x01; x00; x00; x00; x06; x01; x03; x00; x04; x00; x05])])
       = [t1; t0; p1; p0; l1; l0; u] ++ [x03; s1; s0; q1; q0] ++ rest /\
     x83 = x83 /\
     0 <= struct.be16 s1 s0 /\
     struct.be16 s1 s0 + struct.be16 q1 q0 > 6).
Proof.
  destruct illegal_address_means_past_end as [Hwire Hresp].
  split.
  - apply (Hwire [x00; x04; x00; x05] 4 5). reflexivity.
  - apply (Hresp
             (connection [(x00, [x01; x00; x00; x00; x06; x01; x03; x00; x04; x00; x05])])
             [x00; x01; x00; x00; x00; x03; x01; x83; x02] x83).
    + reflexivity.
    + reflexivity.
Defined.

(* ================================================================== *)
(** * Further properties of the code *)

(* ------------------------------------------------------------------ *)
(** ** [hexdump] *)

Lemma hex_digits_of_byte (b : byte) :
  hex_value (hex_digit (byte_to_Z b / 16)) = Some (byte_to_Z b / 16) /\
  hex_value (hex_digit (byte_to_Z b mod 16)) = Some (byte_to_Z b mod 16) /\
  byte_of_Z (16 * (byte_to_Z b / 16) + byte_to_Z b mod 16) = b.
Proof.
  destruct b; (split; [|split]); vm_compute; reflexivity.
Qed.

(** X1. A hex dump can be read back: the log line of a frame determines
    its bytes. *)
Theorem hexdump_round_trip (data : list byte) (width : Z) :
  unhexdump (hexdump data width) = Some data.
Proof.
  unfold hexdump. induction data as [|a rest IH]; [reflexivity|].
  destruct (hex_digits_of_byte a) as (Hhi & Hlo & Hb).
  destruct rest as [|b rest'].
  - cbn [map String.concat format_02X unhexdump]. rewrite Hhi, Hlo, Hb. reflexivity.
  - change (String.concat " " (map format_02X (a :: b :: rest')))
      with (String (hex_digit (byte_to_Z a / 16))
              (String (hex_digit (byte_to_Z a mod 16))
                 (String " " (String.concat " " (map format_02X (b :: rest')))))).
    cbn [unhexdump]. rewrite Hhi, Hlo, Hb.
    change (Ascii.eqb " " " ") with true. cbv iota.
    rewrite IH. reflexivity.
Qed.

(** X2. The dump takes two digits per byte and one space between bytes:
    [3 * len(data) - 1] characters, and none for no data. *)
Theorem hexdump_length (data : list byte) (width : Z) :
  String.length (hexdump data width) = (3 * length data - 1)%nat.
Proof.
  unfold hexdump. induction data as [|a rest IH]; [reflexivity|].
  destruct rest as [|b rest'].
  - reflexivity.
  - change (String.concat " " (map format_02X (a :: b :: rest')))
      with (String (hex_digit (byte_to_Z a / 16))
              (String (hex_digit (byte_to_Z a mod 16))
                 (String " " (String.concat " " (map format_02X (b :: rest')))))).
    cbn [String.length]. rewrite IH. cbn [length]. lia.
Qed.

Example hexdump_of_three_bytes : hexdump [x00; xff; x2a] 16 = "00 FF 2A"%string.
Proof. reflexivity. Qed.

(* ------------------------------------------------------------------ *)
(** ** [recv_exact] *)

(** A read that returns: its length, where its bytes come from, and what
    it leaves unchanged. *)
Lemma recv_exact_inv (n : Z) (w w' : world) (bs : list byte) :
  recv_exact n w = (Return bs, w') ->
  len bs = Z.max n 0 /\ stream w = bs ++ stream w' /\ same_env w w'.
Proof.
  intros Hrun.
  destruct (Z_le_gt_dec n (len (stream w))) as [Hle|Hgt].
  - destruct (recv_exact_ok n w Hle) as (w1 & Hok & Hs & Henv).
    rewrite Hok in Hrun. injection Hrun as <- <-.
    rewrite Hs, firstn_skipn. split; [|split; [reflexivity|exact Henv]].
    unfold len in *. rewrite length_firstn. lia.
  - destruct (recv_exact_short n w ltac:(lia)) as (w1 & Hko & _).
    rewrite Hko in Hrun. discriminate.
Qed.

(** X3. What [recv_exact] returns depends on the bytes the peer delivers and
    not on how they are split into segments: with at least [n] bytes to
    come it returns the first [n] and leaves the rest unread; with fewer it
    raises [ConnectionError] and nothing is left. *)
Theorem recv_exact_by_stream (n : Z) (w : world) :
  fst (recv_exact n w)
  = (if n <=? len (stream w)
     then Return (firstn (Z.to_nat n) (stream w))
     else Raise (ConnectionError "Socket closed while receiving data")) /\
  stream (snd (recv_exact n w))
  = (if n <=? len (stream w) then skipn (Z.to_nat n) (stream w) else []) /\
  same_env w (snd (recv_exact n w)).
Proof.
  destruct (n <=? len (stream w)) eqn:E.
  - apply Z.leb_le in E.
    destruct (recv_exact_ok n w E) as (w' & -> & Hs & Henv). auto.
  - apply Z.leb_gt in E.
    destruct (recv_exact_short n w E) as (w' & -> & Hs & Henv). auto.
Qed.

(** X4. When [recv_exact] returns, it returns exactly [n] bytes (none for
    a negative [n]), and they are the bytes consumed from the stream: none
    is lost and none beyond them is read. *)
Theorem recv_exact_returns_exactly (n : Z) (w w' : world) (bs : list byte) :
  recv_exact n w = (Return bs, w') ->
  len bs = Z.max n 0 /\ stream w = bs ++ stream w'.
Proof.
  intros Hrun. destruct (recv_exact_inv n w w' bs Hrun) as (Hlen & Hs & _). auto.
Qed.

Lemma recv_exact_returns_exactly_witness :
  len [x0a; x0b; x0c] = Z.max 3 0 /\
  stream (connection [(x0a, []); (x0b, [x0c; x0d])])
  = [x0a; x0b; x0c] ++ stream (connection [(x0d, [])]).
Proof.
  apply (recv_exact_returns_exactly 3
           (connection [(x0a, []); (x0b, [x0c; x0d])])
           (connection [(x0d, [])]) [x0a; x0b; x0c]).
  reflexivity.
Defined.

(** X5. Asked for no byte, or for a negative number of bytes, [recv_exact]
    returns the empty bytes object without touching the socket, even when
    the peer has already closed. *)
Theorem recv_exact_nothing_to_read (n : Z) (w : world) :
  n <= 0 -> recv_exact n w = (Return [], w).
Proof.
  intros Hn. unfold recv_exact.
  replace (Z.to_nat n) with 0%nat by lia. cbn [recv_exact_loop].
  replace (0 <? n) with false by (symmetry; apply Z.ltb_ge; lia).
  reflexivity.
Qed.

Lemma recv_exact_nothing_to_read_witness :
  recv_exact (-1) (connection []) = (Return [], connection []).
Proof.
  apply (recv_exact_nothing_to_read (-1) (connection [])). lia.
Defined.

(** X6. Two reads in a row return what one read of the total would: the
    header read followed by the body read sees the same bytes as a single
    read of the whole frame. *)
Theorem recv_exact_in_two_steps (a b : Z) (w w' : world) (bs : list byte) :
  0 <= a -> 0 <= b ->
  recv_exact (a + b) w = (Return bs, w') ->
  exists w1 w2,
    recv_exact a w = (Return (firstn (Z.to_nat a) bs), w1) /\
    recv_exact b w1 = (Return (skipn (Z.to_nat a) bs), w2) /\
    stream w2 = stream w' /\ same_env w' w2.
Proof.
  intros Ha Hb Hrun.
  destruct (recv_exact_inv _ _ _ _ Hrun) as (Hlen & Hs & Henv').
  assert (Hsplit : stream w
                   = firstn (Z.to_nat a) bs ++ (skipn (Z.to_nat a) bs ++ stream w')).
  { rewrite app_assoc, firstn_skipn. exact Hs. }
  destruct (recv_exact_prefix a w _ _ Hsplit) as (w1 & H1 & Hs1 & Henv1).
  { unfold len in *. rewrite length_firstn. lia. }
  destruct (recv_exact_prefix b w1 _ _ Hs1) as (w2 & H2 & Hs2 & Henv2).
  { unfold len in *. rewrite length_skipn. lia. }
  exists w1, w2. split; [exact H1|]. split; [exact H2|]. split; [exact Hs2|].
  destruct Henv' as (o & c & k & t). destruct Henv1 as (o1 & c1 & k1 & t1).
  destruct Henv2 as (o2 & c2 & k2 & t2).
  repeat split; congruence.
Qed.

Lemma recv_exact_in_two_steps_witness :
  exists w1 w2,
    recv_exact 2 (connection [(x01, [x02; x03]); (x04, [x05])])
      = (Return (firstn (Z.to_nat 2) [x01; x02; x03; x04]), w1) /\
    recv_exact 2 w1 = (Return (skipn (Z.to_nat 2) [x01; x02; x03; x04]), w2) /\
    stream w2 = stream (connection [(x05, [])]) /\
    same_env (connection [(x05, [])]) w2.
Proof.
  apply (recv_exact_in_two_steps 2 2
           (connection [(x01, [x02; x03]); (x04, [x05])])
           (connection [(x05, [])]) [x01; x02; x03; x04]).
  - lia.
  - lia.
  - reflexivity.
Defined.

(* ------------------------------------------------------------------ *)
(** ** [parse_mbap_header] and the two builders *)

(** X7. A header that parses has exactly seven bytes, its fields are
    within their unsigned ranges, and packing the fields again gives the
    same seven bytes. *)
Theorem parse_mbap_header_round_trip (hdr : list byte) (tid pid ln uid : Z) :
  parse_mbap_header hdr = Return (tid, pid, ln, uid) ->
  length hdr = 7%nat /\
  header_fields_in_range tid pid uid /\ 0 <= ln <= 65535 /\
  struct.pack_HHHB tid pid ln uid = Return hdr.
Proof.
  unfold parse_mbap_header, struct.unpack_HHHB. intros H.
  destruct hdr as [|t1 [|t0 [|p1 [|p0 [|l1 [|l0 [|u [|x l]]]]]]]]; try discriminate.
  injection H as <- <- <- <-.
  pose proof (be16_range t1 t0). pose proof (be16_range p1 p0).
  pose proof (be16_range l1 l0). pose proof (byte_to_Z_range u).
  split; [reflexivity|]. split; [repeat split; lia|]. split; [lia|].
  unfold struct.pack_HHHB. rewrite !pack_H_be16, pack_B_byte. reflexivity.
Qed.

Lemma parse_mbap_header_round_trip_witness :
  length [x12; x34; x00; x00; x00; x06; xff] = 7%nat /\
  header_fields_in_range 0x1234 0 255 /\ 0 <= 6 <= 65535 /\
  struct.pack_HHHB 0x1234 0 6 255 = Return [x12; x34; x00; x00; x00; x06; xff].
Proof.
  apply (parse_mbap_header_round_trip [x12; x34; x00; x00; x00; x06; xff]
           0x1234 0 6 255).
  reflexivity.
Defined.

Lemma lor_0x80_in_range (function : Z) :
  0 <= Z.lor function 0x80 <= 255 <-> 0 <= function <= 255.
Proof.
  split.
  - intros [Hlo Hhi]. pose proof Hlo as Hnn.
    apply Z.lor_nonneg in Hlo. destruct Hlo as [Hf _]. split; [exact Hf|].
    destruct (Z_le_gt_dec function 255) as [Hle|Hgt]; [exact Hle|exfalso].
    assert (Hlog : 8 <= Z.log2 function).
    { change 8 with (Z.log2 256). apply Z.log2_le_mono. lia. }
    pose proof (Z.log2_lor function 128 Hf ltac:(lia)) as Hl.
    assert (Hpos : 0 < Z.lor function 128).
    { destruct (Z.eq_dec (Z.lor function 128) 0) as [E|E]; [|lia].
      apply Z.lor_eq_0_iff in E. lia. }
    assert (Hlt : Z.lor function 128 < 2 ^ 8) by (change (2 ^ 8) with 256; lia).
    apply Z.log2_lt_pow2 in Hlt; [|exact Hpos]. lia.
  - intros Hf.
    replace function with (byte_to_Z (byte_of_Z function))
      by (rewrite byte_to_of_Z; apply Z.mod_small; lia).
    apply lor_0x80_range.
Qed.

Lemma pack_B_run (v : Z) :
  (0 <= v <= 255 -> struct.pack_B v = Return [byte_of_Z v]) /\
  (~ 0 <= v <= 255 -> struct.pack_B v = Raise StructError).
Proof.
  unfold struct.pack_B.
  destruct ((0 <=? v) && (v <=? 255)) eqn:E.
  - split; [reflexivity|]. intros H. exfalso. apply H.
    apply andb_prop in E. rewrite !Z.leb_le in E. exact E.
  - split; [|reflexivity]. intros H. exfalso.
    apply andb_false_iff in E. rewrite !Z.leb_gt in E. lia.
Qed.

Lemma pack_H_run (v : Z) :
  (0 <= v <= 65535 ->
   struct.pack_H v = Return [byte_of_Z (v / 256); byte_of_Z (v mod 256)]) /\
  (~ 0 <= v <= 65535 -> struct.pack_H v = Raise StructError).
Proof.
  unfold struct.pack_H.
  destruct ((0 <=? v) && (v <=? 65535)) eqn:E.
  - split; [reflexivity|]. intros H. exfalso. apply H.
    apply andb_prop in E. rewrite !Z.leb_le in E. exact E.
  - split; [|reflexivity]. intros H. exfalso.
    apply andb_false_iff in E. rewrite !Z.leb_gt in E. lia.
Qed.

(** The header packer returns exactly when its four fields are in range. *)
Lemma pack_HHHB_run (a b c d : Z) :
  (header_fields_in_range a b d /\ 0 <= c <= 65535 ->
   exists m, struct.pack_HHHB a b c d = Return m) /\
  (~ (header_fields_in_range a b d /\ 0 <= c <= 65535) ->
   struct.pack_HHHB a b c d = Raise StructError).
Proof.
  unfold header_fields_in_range, struct.pack_HHHB.
  destruct (pack_H_run a) as [Ha Ha'], (pack_H_run b) as [Hb Hb'],
           (pack_H_run c) as [Hc Hc'], (pack_B_run d) as [Hd Hd'].
  split.
  - intros ((A & B & D) & C). rewrite (Ha A), (Hb B), (Hc C), (Hd D).
    eexists. reflexivity.
  - intros Hn.
    destruct (Z_le_dec 0 a), (Z_le_dec a 65535);
      try (rewrite Ha' by lia; reflexivity).
    rewrite Ha by lia.
    destruct (Z_le_dec 0 b), (Z_le_dec b 65535);
      try (rewrite Hb' by lia; reflexivity).
    rewrite Hb by lia.
    destruct (Z_le_dec 0 c), (Z_le_dec c 65535);
      try (rewrite Hc' by lia; reflexivity).
    rewrite Hc by lia.
    rewrite Hd' by lia. reflexivity.
Qed.

(** What the exception builder computes, by the ranges of its arguments. *)
Lemma build_exception_response_run (tid pid uid function ex_code : Z) :
  (header_fields_in_range tid pid uid /\
   0 <= function <= 255 /\ 0 <= ex_code <= 255 ->
   exists m,
     struct.pack_HHHB tid pid 3 uid = Return m /\
     build_exception_response tid pid uid function ex_code
     = Return (m ++ [byte_of_Z (Z.lor function 0x80); byte_of_Z ex_code])) /\
  (~ (header_fields_in_range tid pid uid /\
      0 <= function <= 255 /\ 0 <= ex_code <= 255) ->
   build_exception_response tid pid uid function ex_code = Raise StructError).
Proof.
  unfold build_exception_response, struct.pack_BB.
  destruct (pack_B_run (Z.lor function 128)) as [Hf Hf'].
  destruct (pack_B_run ex_code) as [He He'].
  destruct (pack_HHHB_run tid pid 3 uid) as [Hm Hm'].
  pose proof (lor_0x80_in_range function) as Hlor.
  split.
  - intros (Hhdr & Hfn & Hex).
    rewrite Hf by (apply Hlor; exact Hfn). rewrite He by exact Hex.
    destruct Hm as [m Hpack]; [split; [exact Hhdr|lia]|].
    exists m. split; [exact Hpack|].
    cbn [struct.and_then rbind app].
    change (1 + len [byte_of_Z (Z.lor function 128); byte_of_Z ex_code]) with 3.
    rewrite Hpack. reflexivity.
  - intros Hn.
    destruct (Z_le_dec 0 function), (Z_le_dec function 255);
      try (rewrite Hf' by (rewrite Hlor; lia); reflexivity).
    rewrite Hf by (apply Hlor; lia).
    destruct (Z_le_dec 0 ex_code), (Z_le_dec ex_code 255);
      try (rewrite He' by lia; reflexivity).
    rewrite He by lia. cbn [struct.and_then rbind app].
    change (1 + len [byte_of_Z (Z.lor function 128); byte_of_Z ex_code]) with 3.
    rewrite Hm'; [reflexivity|].
    intros [Hhdr _]. apply Hn. split; [exact Hhdr|lia].
Qed.

(** X8. [build_exception_response] returns a frame exactly when the
    transaction and protocol identifiers fit 16 bits and the unit, the
    function code and the exception code fit 8 bits, all unsigned; for any
    other arguments it raises [struct.error]. *)
Theorem build_exception_response_domain (tid pid uid function ex_code : Z) :
  ((exists fr, build_exception_response tid pid uid function ex_code = Return fr)
   <-> header_fields_in_range tid pid uid /\
       0 <= function <= 255 /\ 0 <= ex_code <= 255) /\
  (build_exception_response tid pid uid function ex_code = Raise StructError
   <-> ~ (header_fields_in_range tid pid uid /\
          0 <= function <= 255 /\ 0 <= ex_code <= 255)).
Proof.
  destruct (build_exception_response_run tid pid uid function ex_code)
    as [Hin Hout].
  assert (Hdec : (header_fields_in_range tid pid uid /\
                  0 <= function <= 255 /\ 0 <= ex_code <= 255) \/
                 ~ (header_fields_in_range tid pid uid /\
                    0 <= function <= 255 /\ 0 <= ex_code <= 255)).
  { unfold header_fields_in_range. lia. }
  split; split.
  - intros [fr Hfr]. destruct Hdec as [H|H]; [exact H|].
    rewrite (Hout H) in Hfr. discriminate.
  - intros H. destruct (Hin H) as (m & _ & ->). eexists. reflexivity.
  - intros Hraise H. destruct (Hin H) as (m & _ & Hret).
    rewrite Hret in Hraise. discriminate.
  - exact Hout.
Qed.

(** A function code of 256 does not fit one byte. *)
Lemma build_exception_response_domain_witness :
  (exists fr, build_exception_response 7 0 1 4 1 = Return fr) /\
  build_exception_response 7 0 1 256 1 = Raise StructError.
Proof.
  split.
  - apply (proj1 (build_exception_response_domain 7 0 1 4 1)).
    unfold header_fields_in_range. lia.
  - apply (proj2 (build_exception_response_domain 7 0 1 256 1)).
    unfold header_fields_in_range. lia.
Defined.

(** X9. A frame that [build_exception_response] returns has nine bytes: a
    header that parses back to the given transaction, protocol and unit
    identifiers with length 3, then the function code with its high bit set
    and the exception code. *)
Theorem build_exception_response_decodes (tid pid uid function ex_code : Z)
    (fr : list byte) :
  build_exception_response tid pid uid function ex_code = Return fr ->
  length fr = 9%nat /\
  parse_mbap_header (firstn 7 fr) = Return (tid, pid, 3, uid) /\
  map byte_to_Z (skipn 7 fr) = [Z.lor function 0x80; ex_code].
Proof.
  intros Hfr.
  destruct (build_exception_response_run tid pid uid function ex_code)
    as [Hin Hout].
  assert (Hrange : header_fields_in_range tid pid uid /\
                   0 <= function <= 255 /\ 0 <= ex_code <= 255).
  { assert (Hdec : (header_fields_in_range tid pid uid /\
                    0 <= function <= 255 /\ 0 <= ex_code <= 255) \/
                   ~ (header_fields_in_range tid pid uid /\
                      0 <= function <= 255 /\ 0 <= ex_code <= 255))
      by (unfold header_fields_in_range; lia).
    destruct Hdec as [H|H]; [exact H|].
    rewrite (Hout H) in Hfr. discriminate. }
  destruct (Hin Hrange) as (m & Hpack & Hret).
  rewrite Hret in Hfr. injection Hfr as <-.
  apply pack_HHHB_unpack in Hpack. destruct Hpack as [Hlen Hunpack].
  destruct Hrange as (_ & Hfn & Hex).
  apply lor_0x80_in_range in Hfn.
  rewrite length_app, Hlen.
  rewrite firstn_app, skipn_app, Hlen, Nat.sub_diag, firstn_all2, skipn_all2 by lia.
  cbn [firstn skipn app map length]. rewrite app_nil_r.
  split; [reflexivity|]. split; [exact Hunpack|].
  rewrite !byte_to_of_Z, !Z.mod_small by lia. reflexivity.
Qed.

Lemma build_exception_response_decodes_witness :
  length [x00; x07; x00; x00; x00; x03; x01; x84; x01] = 9%nat /\
  parse_mbap_header (firstn 7 [x00; x07; x00; x00; x00; x03; x01; x84; x01])
    = Return (7, 0, 3, 1) /\
  map byte_to_Z (skipn 7 [x00; x07; x00; x00; x00; x03; x01; x84; x01])
    = [Z.lor 4 0x80; 1].
Proof.
  apply (build_exception_response_decodes 7 0 1 4 1
           [x00; x07; x00; x00; x00; x03; x01; x84; x01]).
  reflexivity.
Defined.

Lemma land_0xFFFF_mod (v : Z) : Z.land v 0xFFFF = v mod 65536.
Proof.
  change 0xFFFF with (Z.ones 16). rewrite Z.land_ones by lia. reflexivity.
Qed.

Lemma decode_register_bytes (values : list Z) :
  decode_registers (flat_map register_bytes values)
  = map (fun v => v mod 65536) values.
Proof.
  induction values as [|v vs IH]; [reflexivity|].
  cbn [flat_map map]. unfold register_bytes at 1. cbn [app decode_registers].
  rewrite IH. f_equal.
  destruct (be16_pack_H _ (land_0xFFFF_range v)) as [_ ->].
  apply land_0xFFFF_mod.
Qed.

(** What the read-response builder computes, by the ranges of its
    arguments. *)
Lemma build_fc3_response_run (tid pid uid : Z) (values : list Z) :
  (header_fields_in_range tid pid uid /\ len values <= 127 ->
   exists m,
     struct.pack_HHHB tid pid (3 + 2 * len values) uid = Return m /\
     build_fc3_response tid pid uid values
     = Return (m ++ [x03; byte_of_Z (2 * len values)]
                 ++ flat_map register_bytes values)) /\
  (~ (header_fields_in_range tid pid uid /\ len values <= 127) ->
   build_fc3_response tid pid uid values = Raise StructError).
Proof.
  unfold build_fc3_response, struct.pack_BB.
  assert (Hpos : 0 <= len values) by (unfold len; lia).
  destruct (pack_B_run (len values * 2)) as [Hb Hb'].
  destruct (pack_HHHB_run tid pid (3 + 2 * len values) uid) as [Hm Hm'].
  pose proof (length_register_bytes values) as Hregs.
  change (struct.pack_B 3) with (@Return (list byte) [x03]).
  rewrite pack_registers_bytes.
  split.
  - intros (Hhdr & Hlen).
    rewrite Hb by lia. cbn [struct.and_then rbind app].
    destruct Hm as [m Hpack]; [split; [exact Hhdr|lia]|].
    exists m. split; [exact Hpack|].
    replace (1 + len (x03 :: byte_of_Z (len values * 2)
                        :: flat_map register_bytes values))
      with (3 + 2 * len values)
      by (unfold len in *; cbn [length]; lia).
    rewrite Hpack. cbn [rbind]. rewrite (Z.mul_comm (len values) 2). reflexivity.
  - intros Hn.
    destruct (Z_le_dec (len values) 127) as [Hle|Hgt].
    + rewrite Hb by lia. cbn [struct.and_then rbind app].
      replace (1 + len (x03 :: byte_of_Z (len values * 2)
                          :: flat_map register_bytes values))
        with (3 + 2 * len values)
        by (unfold len in *; cbn [length]; lia).
      rewrite Hm'; [reflexivity|].
      intros [Hhdr _]. apply Hn. split; [exact Hhdr|exact Hle].
    + rewrite Hb' by lia. reflexivity.
Qed.

Lemma build_fc3_response_range_dec (tid pid uid : Z) (values : list Z) :
  (header_fields_in_range tid pid uid /\ len values <= 127) \/
  ~ (header_fields_in_range tid pid uid /\ len values <= 127).
Proof. unfold header_fields_in_range. lia. Qed.

(** X10. [build_fc3_response] returns a frame exactly when the header
    fields are in range and there are at most 127 registers, so that the
    byte count fits one byte; the register values themselves are never a
    reason to fail. For any other arguments it raises [struct.error]. *)
Theorem build_fc3_response_domain (tid pid uid : Z) (values : list Z) :
  ((exists fr, build_fc3_response tid pid uid values = Return fr)
   <-> header_fields_in_range tid pid uid /\ len values <= 127) /\
  (build_fc3_response tid pid uid values = Raise StructError
   <-> ~ (header_fields_in_range tid pid uid /\ len values <= 127)).
Proof.
  destruct (build_fc3_response_run tid pid uid values) as [Hin Hout].
  destruct (build_fc3_response_range_dec tid pid uid values) as [H|H].
  - destruct (Hin H) as (m & _ & Hret). split; split.
    + intros _. exact H.
    + intros _. eexists. exact Hret.
    + intros Hraise. rewrite Hret in Hraise. discriminate.
    + intros Hn. contradiction.
  - split; split.
    + intros [fr Hfr]. rewrite (Hout H) in Hfr. discriminate.
    + intros H'. contradiction.
    + intros _. exact H.
    + exact Hout.
Qed.

(** 127 registers of any value are encoded; 128 registers are not. *)
Lemma build_fc3_response_domain_witness :
  (exists fr, build_fc3_response 1 0 1 (repeat (-1) 127) = Return fr) /\
  build_fc3_response 1 0 1 (repeat 0 128) = Raise StructError.
Proof.
  split.
  - apply (proj1 (build_fc3_response_domain 1 0 1 (repeat (-1) 127))).
    unfold header_fields_in_range, len. rewrite repeat_length. lia.
  - apply (proj2 (build_fc3_response_domain 1 0 1 (repeat 0 128))).
    unfold header_fields_in_range, len. rewrite repeat_length. lia.
Defined.

(** X11. A frame that [build_fc3_response] returns has 9 + 2 * len(values)
    bytes: a header that parses back to the given identifiers with length
    3 + 2 * len(values), the function code 0x03, the byte count
    2 * len(values), and registers that read back as the values modulo
    65536, in order. *)
Theorem build_fc3_response_decodes (tid pid uid : Z) (values : list Z)
    (fr : list byte) :
  build_fc3_response tid pid uid values = Return fr ->
  len fr = 9 + 2 * len values /\
  parse_mbap_header (firstn 7 fr) = Return (tid, pid, 3 + 2 * len values, uid) /\
  map byte_to_Z (firstn 2 (skipn 7 fr)) = [0x03; 2 * len values] /\
  decode_registers (skipn 9 fr) = map (fun v => v mod 65536) values.
Proof.
  intros Hfr.
  destruct (build_fc3_response_run tid pid uid values) as [Hin Hout].
  destruct (build_fc3_response_range_dec tid pid uid values) as [H|H];
    [|rewrite (Hout H) in Hfr; discriminate].
  destruct (Hin H) as (m & Hpack & Hret).
  rewrite Hret in Hfr. injection Hfr as <-.
  apply pack_HHHB_unpack in Hpack. destruct Hpack as [Hlen Hunpack].
  destruct H as [_ Hn].
  assert (Hpos : 0 <= len values) by (unfold len; lia).
  pose proof (length_register_bytes values) as Hregs.
  destruct m as [|m0 [|m1 [|m2 [|m3 [|m4 [|m5 [|m6 [|x l]]]]]]]]; try discriminate.
  assert (Hbc : byte_to_Z (byte_of_Z (2 * len values)) = 2 * len values)
    by (rewrite byte_to_of_Z; apply Z.mod_small; lia).
  cbn [app firstn skipn map].
  split; [unfold len in *; cbn [length]; lia|].
  split; [exact Hunpack|].
  split.
  - change ([byte_to_Z x03; byte_to_Z (byte_of_Z (2 * len values))]
            = [3; 2 * len values]).
    rewrite Hbc. reflexivity.
  - apply decode_register_bytes.
Qed.

Lemma build_fc3_response_decodes_witness :
  len [x00; x01; x00; x00; x00; x07; x01; x03; x04; xff; xff; x07; xe9]
    = 9 + 2 * len [-1; 2025] /\
  parse_mbap_header
    (firstn 7 [x00; x01; x00; x00; x00; x07; x01; x03; x04; xff; xff; x07; xe9])
    = Return (1, 0, 3 + 2 * len [-1; 2025], 1) /\
  map byte_to_Z
    (firstn 2 (skipn 7 [x00; x01; x00; x00; x00; x07; x01; x03; x04; xff; xff; x07; xe9]))
    = [0x03; 2 * len [-1; 2025]] /\
  decode_registers
    (skipn 9 [x00; x01; x00; x00; x00; x07; x01; x03; x04; xff; xff; x07; xe9])
    = map (fun v => v mod 65536) [-1; 2025].
Proof.
  apply (build_fc3_response_decodes 1 0 1 [-1; 2025]
           [x00; x01; x00; x00; x00; x07; x01; x03; x04; xff; xff; x07; xe9]).
  reflexivity.
Defined.

Lemma map_mod_in_range (values : list Z) :
  Forall (fun v => 0 <= v <= 65535) values ->
  map (fun v => v mod 65536) values = values.
Proof.
  induction 1 as [|v vs Hv _ IH]; [reflexivity|].
  cbn [map]. rewrite IH, Z.mod_small by lia. reflexivity.
Qed.

(** X12. Register values that are already unsigned 16-bit numbers, as the
    fields of a date are, read back from the response unchanged. *)
Theorem build_fc3_response_exact (tid pid uid : Z) (values : list Z)
    (fr : list byte) :
  Forall (fun v => 0 <= v <= 65535) values ->
  build_fc3_response tid pid uid values = Return fr ->
  decode_registers (skipn 9 fr) = values.
Proof.
  intros Hrange Hfr.
  destruct (build_fc3_response_run tid pid uid values) as [Hin Hout].
  destruct (build_fc3_response_range_dec tid pid uid values) as [H|H];
    [|rewrite (Hout H) in Hfr; discriminate].
  destruct (Hin H) as (m & Hpack & Hret).
  rewrite Hret in Hfr. injection Hfr as <-.
  apply pack_HHHB_unpack in Hpack. destruct Hpack as [Hlen _].
  destruct m as [|m0 [|m1 [|m2 [|m3 [|m4 [|m5 [|m6 [|x l]]]]]]]]; try discriminate.
  cbn [app skipn]. rewrite decode_register_bytes.
  apply map_mod_in_range. exact Hrange.
Qed.

Lemma build_fc3_response_exact_witness :
  decode_registers
    (skipn 9 [x00; x01; x00; x00; x00; x0f; x01; x03; x0c; x00; x0f; x00; x06;
              x07; xe9; x00; x0d; x00; x2d; x00; x1e])
  = registers_of mock_now.
Proof.
  apply (build_fc3_response_exact 1 0 1 (registers_of mock_now)
           [x00; x01; x00; x00; x00; x0f; x01; x03; x0c; x00; x0f; x00; x06;
            x07; xe9; x00; x0d; x00; x2d; x00; x1e]).
  - repeat constructor; cbn; lia.
  - reflexivity.
Defined.

(* ------------------------------------------------------------------ *)
(** ** One pass of [handle_client] *)

Lemma lor_0x80_high_bit (fc : byte) :
  128 <= Z.lor (byte_to_Z fc) 0x80 /\
  (128 <= byte_to_Z fc -> byte_of_Z (Z.lor (byte_to_Z fc) 0x80) = fc).
Proof.
  destruct fc; (split; [vm_compute; discriminate|]);
    intros H; try reflexivity; exfalso; vm_compute in H; apply H; reflexivity.
Qed.

(** X13. A request whose function code already has its high bit set is
    answered with an Illegal Function exception that carries the very same
    function byte: setting the bit changes nothing. *)
Theorem high_bit_function_kept (w : world)
    (t1 t0 p1 p0 l1 l0 u fc : byte) (payload rest : list byte) :
  stream w = [t1; t0; p1; p0; l1; l0; u] ++ (fc :: payload) ++ rest ->
  struct.be16 l1 l0 = 2 + len payload ->
  128 <= byte_to_Z fc ->
  exists w',
    handle_request w = (Return tt, w') /\
    outbox w' = outbox w ++ [[t1; t0; p1; p0; x00; x03; u] ++ [fc; x01]].
Proof.
  intros Hstream Hlen Hfc.
  destruct (handle_request_serves w t1 t0 p1 p0 l1 l0 u fc payload rest
              Hstream Hlen) as (w' & Hrun & _ & Hout & _).
  exists w'. split; [exact Hrun|]. rewrite Hout.
  cbn [response_pdu].
  replace (byte_to_Z fc =? 3) with false by (symmetry; apply Z.eqb_neq; lia).
  rewrite (proj2 (lor_0x80_high_bit fc) Hfc). reflexivity.
Qed.

(** Function byte 0x83: the answer [83 01] reads like an exception reply to
    function 0x03. *)
Lemma high_bit_function_kept_witness :
  exists w',
    handle_request (connection [(x00, [x09; x00; x00; x00; x02; x01; x83])])
      = (Return tt, w') /\
    outbox w' = [] ++ [[x00; x09; x00; x00; x00; x03; x01] ++ [x83; x01]].
Proof.
  apply (high_bit_function_kept
           (connection [(x00, [x09; x00; x00; x00; x02; x01; x83])])
           x00 x09 x00 x00 x00 x02 x01 x83 [] []).
  - reflexivity.
  - reflexivity.
  - vm_compute. discriminate.
Defined.

(** X14. A pass of the handler that returns has consumed exactly one frame,
    seven header bytes and the non-empty PDU they announce, has sent
    exactly one response, has read the clock at most once and has left the
    socket open. *)
Theorem handle_request_one_frame_one_response (w w' : world) :
  handle_request w = (Return tt, w') ->
  exists hdr pdu resp tid pid uid,
    stream w = hdr ++ pdu ++ stream w' /\
    parse_mbap_header hdr = Return (tid, pid, 1 + len pdu, uid) /\
    pdu <> [] /\
    outbox w' = outbox w ++ [resp] /\
    (ticks w <= ticks w' <= S (ticks w))%nat /\
    closed w' = closed w.
Proof.
  intros Hrun.
  destruct (stream_head_cases (stream w))
    as [Hshort | t1 t0 p1 p0 l1 l0 u rest Hs Hl
        | t1 t0 p1 p0 l1 l0 u tail Hs Hl
        | t1 t0 p1 p0 l1 l0 u fc payload rest Hs Hl].
  - destruct (handle_request_short_header w Hshort) as (w1 & H1 & _).
    rewrite H1 in Hrun. discriminate.
  - destruct (handle_request_empty_pdu w _ _ _ _ _ _ _ _ Hs Hl) as (w1 & H1 & _).
    rewrite H1 in Hrun. discriminate.
  - destruct (handle_request_short_body w _ _ _ _ _ _ _ _ Hs Hl) as (w1 & H1 & _).
    rewrite H1 in Hrun. discriminate.
  - destruct (handle_request_serves w _ _ _ _ _ _ _ _ _ _ Hs Hl)
      as (w1 & H1 & Hrest & Hout & Hc & _ & Ht).
    rewrite H1 in Hrun. injection Hrun as <-.
    exists [t1; t0; p1; p0; l1; l0; u], (fc :: payload).
    eexists _, _, _, _. rewrite Hrest.
    split; [exact Hs|]. split.
    { unfold parse_mbap_header, struct.unpack_HHHB. rewrite Hl.
      replace (1 + len (fc :: payload)) with (2 + len payload)
        by (unfold len; cbn [length]; lia).
      reflexivity. }
    split; [discriminate|]. split; [exact Hout|]. split; [|exact Hc].
    rewrite Ht. destruct (samples_clock (fc :: payload)); lia.
Qed.

Lemma handle_request_one_frame_one_response_witness :
  exists hdr pdu resp tid pid uid,
    stream (connection [(x00, [x01; x00; x00; x00; x02; x01; x07; xaa])])
      = hdr ++ pdu
        ++ stream (set_outbox (connection [(xaa, [])])
                     [[x00; x01; x00; x00; x00; x03; x01; x87; x01]]) /\
    parse_mbap_header hdr = Return (tid, pid, 1 + len pdu, uid) /\
    pdu <> [] /\
    outbox (set_outbox (connection [(xaa, [])])
              [[x00; x01; x00; x00; x00; x03; x01; x87; x01]])
      = outbox (connection [(x00, [x01; x00; x00; x00; x02; x01; x07; xaa])])
        ++ [resp] /\
    (ticks (connection [(x00, [x01; x00; x00; x00; x02; x01; x07; xaa])])
     <= ticks (set_outbox (connection [(xaa, [])])
                 [[x00; x01; x00; x00; x00; x03; x01; x87; x01]])
     <= S (ticks (connection [(x00, [x01; x00; x00; x00; x02; x01; x07; xaa])])))%nat /\
    closed (set_outbox (connection [(xaa, [])])
              [[x00; x01; x00; x00; x00; x03; x01; x87; x01]])
      = closed (connection [(x00, [x01; x00; x00; x00; x02; x01; x07; xaa])]).
Proof.
  apply (handle_request_one_frame_one_response
           (connection [(x00, [x01; x00; x00; x00; x02; x01; x07; xaa])])
           (set_outbox (connection [(xaa, [])])
              [[x00; x01; x00; x00; x00; x03; x01; x87; x01]])).
  reflexivity.
Defined.

(** The two shapes of a response PDU. *)
Lemma response_pdu_shape (now : datetime) (fc : byte) (payload : list byte) :
  (exists e c,
     response_pdu now (fc :: payload) = [e; c] /\
     128 <= byte_to_Z e /\ (c = x01 \/ c = x02 \/ c = x03)) \/
  (exists k regs,
     1 <= k <= 6 /\
     response_pdu now (fc :: payload) = [x03; byte_of_Z (2 * k)] ++ regs /\
     len regs = 2 * k).
Proof.
  cbn [response_pdu].
  destruct (byte_to_Z fc =? 3).
  2:{ left. eexists _, _. split; [reflexivity|]. split; [|auto].
      rewrite byte_to_of_Z, Z.mod_small.
      - apply lor_0x80_high_bit.
      - pose proof (lor_0x80_range fc). lia. }
  assert (Hx83 : 128 <= byte_to_Z x83) by (vm_compute; discriminate).
  destruct payload as [|s1 [|s0 [|q1 [|q0 [|e l]]]]];
    try (left; exists x83, x03;
         split; [reflexivity|split; [exact Hx83|auto]]; fail).
  destruct ((struct.be16 q1 q0 <? 1) || (struct.be16 q1 q0 >? 125)) eqn:Hqty;
    [left; exists x83, x03; split; [reflexivity|split; [exact Hx83|auto]]|].
  destruct (struct.be16 s1 s0 + struct.be16 q1 q0 >? 6) eqn:Haddr;
    [left; exists x83, x02; split; [reflexivity|split; [exact Hx83|auto]]|].
  right.
  apply orb_false_elim in Hqty. destruct Hqty as [Hq1 _]. apply Z.ltb_ge in Hq1.
  rewrite Z.gtb_ltb in Haddr. apply Z.ltb_ge in Haddr.
  pose proof (be16_range s1 s0) as Hstart.
  eexists (struct.be16 q1 q0), _. split; [lia|]. split; [reflexivity|].
  rewrite length_register_bytes. unfold len.
  rewrite length_firstn, length_skipn. cbn [length registers_of]. lia.
Qed.

(** X15. Whatever the request, a response frame has between 9 and 21
    bytes: a request for 125 registers, or a PDU of 65534 bytes, is never
    answered with more than the six registers the server has. *)
Theorem response_size_bounded (w : world) (resp : list byte) :
  outbox (snd (handle_request w)) = outbox w ++ [resp] ->
  9 <= len resp <= 21.
Proof.
  intros Hout.
  destruct (handle_request_response w resp Hout)
    as (t1 & t0 & p1 & p0 & l1 & l0 & u & fc & payload & rest & _ & _ & ->).
  unfold frame, len. rewrite length_app. cbn [length].
  destruct (response_pdu_shape (clock w (ticks w)) fc payload)
    as [(e & c & -> & _) | (k & regs & Hk & -> & Hregs)].
  - cbn [length]. lia.
  - rewrite length_app. cbn [length]. unfold len in Hregs. lia.
Qed.

(** A request for 125 registers from address 0 gets a nine-byte exception. *)
Lemma response_size_bounded_witness :
  9 <= len [x00; x01; x00; x00; x00; x03; x01; x83; x02] <= 21.
Proof.
  apply (response_size_bounded
           (connection [(x00, [x01; x00; x00; x00; x06; x01; x03; x00; x00; x00; x7d])])
           [x00; x01; x00; x00; x00; x03; x01; x83; x02]).
  reflexivity.
Defined.

(** X16. The server sends only two kinds of PDU after the seven header
    bytes: a two-byte exception, whose function byte has the high bit set
    and whose code is 1, 2 or 3; or a normal response to function 0x03 with
    a byte count of 2 to 12 followed by that many register bytes. *)
Theorem response_is_exception_or_read (w : world) (resp : list byte) :
  outbox (snd (handle_request w)) = outbox w ++ [resp] ->
  exists hdr,
    length hdr = 7%nat /\
    ((exists e c,
        resp = hdr ++ [e; c] /\
        128 <= byte_to_Z e /\ (c = x01 \/ c = x02 \/ c = x03)) \/
     (exists k regs,
        resp = hdr ++ [x03; byte_of_Z (2 * k)] ++ regs /\
        1 <= k <= 6 /\ len regs = 2 * k)).
Proof.
  intros Hout.
  destruct (handle_request_response w resp Hout)
    as (t1 & t0 & p1 & p0 & l1 & l0 & u & fc & payload & rest & _ & _ & ->).
  unfold frame.
  destruct (response_pdu_shape (clock w (ticks w)) fc payload)
    as [(e & c & -> & He & Hc) | (k & regs & Hk & -> & Hregs)].
  - eexists. split; [|left; exists e, c; split; [reflexivity|auto]].
    reflexivity.
  - eexists. split; [|right; exists k, regs; split; [reflexivity|auto]].
    reflexivity.
Qed.

Lemma response_is_exception_or_read_witness :
  exists hdr,
    length hdr = 7%nat /\
    ((exists e c,
        [x00; x01; x00; x00; x00; x05; x01; x03; x02; x00; x2d] = hdr ++ [e; c] /\
        128 <= byte_to_Z e /\ (c = x01 \/ c = x02 \/ c = x03)) \/
     (exists k regs,
        [x00; x01; x00; x00; x00; x05; x01; x03; x02; x00; x2d]
          = hdr ++ [x03; byte_of_Z (2 * k)] ++ regs /\
        1 <= k <= 6 /\ len regs = 2 * k)).
Proof.
  apply (response_is_exception_or_read
           (connection [(x00, [x01; x00; x00; x00; x06; x01; x03; x00; x04; x00; x01])])
           [x00; x01; x00; x00; x00; x05; x01; x03; x02; x00; x2d]).
  reflexivity.
Defined.

(* ------------------------------------------------------------------ *)
(** ** The whole connection *)

Lemma same_input_after (w1 w2 w1' w2' : world) :
  same_input w1 w2 ->
  same_env w1 w1' -> same_env w2 w2' -> stream w1' = stream w2' ->
  same_input w1' w2'.
Proof.
  intros (_ & Ho & Hc & Hk & Ht) (o1 & c1 & k1 & t1) (o2 & c2 & k2 & t2) Hs.
  repeat split; congruence.
Qed.

(** One pass gives the same result whatever the segmentation. *)
Lemma handle_request_same_input (w1 w2 : world) :
  same_input w1 w2 ->
  fst (handle_request w1) = fst (handle_request w2) /\
  same_input (snd (handle_request w1)) (snd (handle_request w2)).
Proof.
  intros Hsame. pose proof Hsame as (Hst & Ho & Hc & Hk & Ht).
  destruct (stream_head_cases (stream w1))
    as [Hshort | t1 t0 p1 p0 l1 l0 u rest Hs Hl
        | t1 t0 p1 p0 l1 l0 u tail Hs Hl
        | t1 t0 p1 p0 l1 l0 u fc payload rest Hs Hl].
  - destruct (handle_request_short_header w1 Hshort) as (w1' & -> & Hr1 & He1).
    rewrite Hst in Hshort.
    destruct (handle_request_short_header w2 Hshort) as (w2' & -> & Hr2 & He2).
    cbn [fst snd]. split; [reflexivity|].
    eapply same_input_after; eauto. congruence.
  - destruct (handle_request_empty_pdu w1 _ _ _ _ _ _ _ _ Hs Hl)
      as (w1' & -> & Hr1 & He1).
    rewrite Hst in Hs.
    destruct (handle_request_empty_pdu w2 _ _ _ _ _ _ _ _ Hs Hl)
      as (w2' & -> & Hr2 & He2).
    cbn [fst snd]. split; [reflexivity|].
    eapply same_input_after; eauto. congruence.
  - destruct (handle_request_short_body w1 _ _ _ _ _ _ _ _ Hs Hl)
      as (w1' & -> & Hr1 & He1).
    rewrite Hst in Hs.
    destruct (handle_request_short_body w2 _ _ _ _ _ _ _ _ Hs Hl)
      as (w2' & -> & Hr2 & He2).
    cbn [fst snd]. split; [reflexivity|].
    eapply same_input_after; eauto. congruence.
  - destruct (handle_request_serves w1 _ _ _ _ _ _ _ _ _ _ Hs Hl)
      as (w1' & -> & Hr1 & Ho1 & Hc1 & Hk1 & Ht1).
    rewrite Hst in Hs.
    destruct (handle_request_serves w2 _ _ _ _ _ _ _ _ _ _ Hs Hl)
      as (w2' & -> & Hr2 & Ho2 & Hc2 & Hk2 & Ht2).
    cbn [fst snd]. split; [reflexivity|].
    unfold same_input. rewrite Hr1, Hr2, Ho1, Ho2, Hc1, Hc2, Hk1, Hk2, Ht1, Ht2.
    rewrite Ho, Hc, Hk, Ht. repeat split.
Qed.

Lemma serve_loop_same_input (fuel : nat) :
  forall w1 w2 : world,
    same_input w1 w2 ->
    fst (serve_loop fuel w1) = fst (serve_loop fuel w2) /\
    same_input (snd (serve_loop fuel w1)) (snd (serve_loop fuel w2)).
Proof.
  induction fuel as [|fuel IH]; intros w1 w2 Hsame.
  - cbn. auto.
  - cbn [serve_loop]. unfold bind.
    destruct (handle_request_same_input w1 w2 Hsame) as [Hres Hnext].
    destruct (handle_request w1) as [r1 w1'], (handle_request w2) as [r2 w2'].
    cbn [fst snd] in Hres, Hnext. subst r2.
    destruct r1 as [[]|e|]; cbn [fst snd]; auto.
Qed.

(** X17. The way TCP splits the client's bytes into segments does not
    matter: on two connections that deliver the same bytes,
    [handle_client] ends with the same result and has sent the same
    responses. *)
Theorem handle_client_ignores_segmentation (fuel : nat) (w1 w2 : world) :
  same_input w1 w2 ->
  fst (handle_client fuel w1) = fst (handle_client fuel w2) /\
  outbox (snd (handle_client fuel w1)) = outbox (snd (handle_client fuel w2)) /\
  stream (snd (handle_client fuel w1)) = stream (snd (handle_client fuel w2)).
Proof.
  intros Hsame.
  destruct (serve_loop_same_input fuel w1 w2 Hsame) as [Hres Hnext].
  unfold handle_client, try_finally, try_except.
  destruct (serve_loop fuel w1) as [r1 w1'], (serve_loop fuel w2) as [r2 w2'].
  cbn [fst snd] in Hres, Hnext. subst r2.
  destruct Hnext as (Hs & Ho & _).
  destruct r1 as [[]|e|]; [| destruct (is_transport_error e) |];
    cbn [fst snd close ret outbox set_closed]; unfold stream in *;
    cbn [inbox set_closed]; auto.
Qed.

(** The scenario request in one segment, and one byte at a time. *)
Lemma handle_client_ignores_segmentation_witness :
  fst (handle_client 3
         (connection [(x00, [x01; x00; x00; x00; x06; x01; x03; x00; x00; x00; x06])]))
  = fst (handle_client 3
           (connection [(x00, []); (x01, []); (x00, []); (x00, []); (x00, []);
                        (x06, []); (x01, []); (x03, []); (x00, []); (x00, []);
                        (x00, []); (x06, [])])) /\
  outbox (snd (handle_client 3
         (connection [(x00, [x01; x00; x00; x00; x06; x01; x03; x00; x00; x00; x06])])))
  = outbox (snd (handle_client 3
           (connection [(x00, []); (x01, []); (x00, []); (x00, []); (x00, []);
                        (x06, []); (x01, []); (x03, []); (x00, []); (x00, []);
                        (x00, []); (x06, [])]))) /\
  stream (snd (handle_client 3
         (connection [(x00, [x01; x00; x00; x00; x06; x01; x03; x00; x00; x00; x06])])))
  = stream (snd (handle_client 3
           (connection [(x00, []); (x01, []); (x00, []); (x00, []); (x00, []);
                        (x06, []); (x01, []); (x03, []); (x00, []); (x00, []);
                        (x00, []); (x06, [])]))).
Proof.
  apply (handle_client_ignores_segmentation 3
           (connection [(x00, [x01; x00; x00; x00; x06; x01; x03; x00; x00; x00; x06])])
           (connection [(x00, []); (x01, []); (x00, []); (x00, []); (x00, []);
                        (x06, []); (x01, []); (x03, []); (x00, []); (x00, []);
                        (x00, []); (x06, [])])).
  repeat split.
Defined.

Example one_byte_segments_served :
  outbox (snd (handle_client 3
           (connection [(x00, []); (x01, []); (x00, []); (x00, []); (x00, []);
                        (x06, []); (x01, []); (x03, []); (x00, []); (x00, []);
                        (x00, []); (x06, [])])))
  = [scenario_response].
Proof. reflexivity. Qed.

(** Once the loop has ended, a larger budget changes nothing. *)
Lemma serve_loop_more_fuel (fuel : nat) :
  forall (w w' : world) (e : exn) (k : nat),
    serve_loop fuel w = (Raise e, w') ->
    serve_loop (fuel + k) w = (Raise e, w').
Proof.
  induction fuel as [|fuel IH]; intros w w' e k Hrun.
  - discriminate.
  - cbn [serve_loop Nat.add] in *. unfold bind in *.
    destruct (handle_request w) as [[[]|e0|] w1].
    + apply IH. exact Hrun.
    + exact Hrun.
    + discriminate.
Qed.

(** X18. Whatever bytes the peer sends before it closes, [handle_client]
    returns normally with the socket closed: no exception escapes from the
    handler thread. One loop pass per seven bytes of input, plus one, is
    budget enough, and every such budget gives the same final state. *)
Theorem handle_client_always_returns (w : world) :
  exists w',
    closed w' = true /\
    forall fuel : nat,
      len (stream w) < 7 * Z.of_nat fuel ->
      handle_client fuel w = (Return tt, w').
Proof.
  set (fuel0 := S (length (stream w))).
  destruct (serve_loop_ends fuel0 w) as (e0 & w0 & Hloop0 & He0 & _).
  { unfold fuel0, len. lia. }
  exists (set_closed w0). split; [reflexivity|].
  intros fuel Hfuel.
  destruct (serve_loop_ends fuel w Hfuel) as (e & w1 & Hloop & He & _).
  pose proof (serve_loop_more_fuel fuel0 w w0 e0 fuel Hloop0) as H0.
  pose proof (serve_loop_more_fuel fuel w w1 e fuel0 Hloop) as H1.
  rewrite Nat.add_comm in H1. rewrite H0 in H1. injection H1 as -> ->.
  unfold handle_client, try_finally, try_except. rewrite Hloop, He. reflexivity.
Qed.

(** Three stray bytes, then the peer closes. *)
Lemma handle_client_always_returns_witness :
  exists w',
    closed w' = true /\
    handle_client 1 (connection [(xde, [xad; x00])]) = (Return tt, w').
Proof.
  destruct (handle_client_always_returns (connection [(xde, [xad; x00])]))
    as (w' & Hclosed & Hrun).
  exists w'. split; [exact Hclosed|].
  apply (Hrun 1%nat). vm_compute. reflexivity.
Defined.

Lemma request_frame_shape (r : request) :
  2 + len (rq_payload r) <= 65535 ->
  exists l1 l0,
    request_frame r
    = [rq_t1 r; rq_t0 r; rq_p1 r; rq_p0 r; l1; l0; rq_unit r]
      ++ rq_function r :: rq_payload r /\
    struct.be16 l1 l0 = 2 + len (rq_payload r).
Proof.
  intros Hlen. unfold request_frame, frame, request_pdu.
  eexists _, _. split; [reflexivity|].
  replace (1 + len (rq_function r :: rq_payload r)) with (2 + len (rq_payload r))
    by (unfold len; cbn [length]; lia).
  apply be16_pack_H. unfold len in *. lia.
Qed.

(** The loop over a sequence of whole requests followed by fewer than
    seven bytes. *)
Lemma serve_loop_pipeline (rs : list request) :
  forall (fuel : nat) (w : world) (tail : list byte),
    Forall (fun r => 2 + len (rq_payload r) <= 65535) rs ->
    stream w = flat_map request_frame rs ++ tail ->
    len tail < 7 ->
    (length rs < fuel)%nat ->
    exists e w',
      serve_loop fuel w = (Raise e, w') /\
      is_transport_error e = true /\
      outbox w' = outbox w ++ replies (clock w) (ticks w) rs /\
      closed w' = closed w.
Proof.
  induction rs as [|r rs IH]; intros fuel w tail Hwf Hstream Htail Hfuel.
  - destruct fuel as [|fuel]; [cbn [length] in Hfuel; lia|].
    cbn [flat_map app] in Hstream. rewrite <- Hstream in Htail.
    destruct (handle_request_short_header w Htail) as (w' & Hrun & _ & (Ho & Hc & _)).
    exists closed_while_receiving, w'. cbn [serve_loop replies].
    rewrite (bind_Raise Hrun), app_nil_r. auto.
  - destruct fuel as [|fuel]; [cbn [length] in Hfuel; lia|].
    inversion Hwf as [|r' rs' Hr Hrs]; subst r' rs'.
    destruct (request_frame_shape r Hr) as (l1 & l0 & Hframe & Hl).
    cbn [flat_map] in Hstream. rewrite Hframe, <- !app_assoc in Hstream.
    cbn [app] in Hstream.
    destruct (handle_request_serves w (rq_t1 r) (rq_t0 r) (rq_p1 r) (rq_p0 r)
                l1 l0 (rq_unit r) (rq_function r)
                (rq_payload r) (flat_map request_frame rs ++ tail))
      as (w1 & Hrun & Hs1 & Ho1 & Hc1 & Hk1 & Ht1).
    { cbn [app]. exact Hstream. }
    { exact Hl. }
    destruct (IH fuel w1 tail Hrs Hs1 Htail ltac:(cbn [length] in Hfuel; lia))
      as (e & w' & Hloop & He & Ho & Hc).
    exists e, w'. cbn [serve_loop]. rewrite (bind_Return Hrun), Hloop.
    split; [reflexivity|]. split; [exact He|]. split; [|congruence].
    rewrite Ho, Ho1, Hk1, Ht1, <- app_assoc. reflexivity.
Qed.

(** X19. Requests that arrive back to back are answered one by one, in
    the order received: when the peer sends whole frames with non-empty
    PDUs and then closes, [handle_client] sends exactly one response per
    request, each with the header bytes of its own request, and the n-th
    request that reads the registers sees the n-th clock sample. *)
Theorem handle_client_answers_in_order (rs : list request) (fuel : nat)
    (w : world) (tail : list byte) :
  Forall (fun r => 2 + len (rq_payload r) <= 65535) rs ->
  stream w = flat_map request_frame rs ++ tail ->
  len tail < 7 ->
  (length rs < fuel)%nat ->
  exists w',
    handle_client fuel w = (Return tt, w') /\
    outbox w' = outbox w ++ replies (clock w) (ticks w) rs /\
    length (outbox w') = (length (outbox w) + length rs)%nat /\
    closed w' = true.
Proof.
  intros Hwf Hstream Htail Hfuel.
  destruct (serve_loop_pipeline rs fuel w tail Hwf Hstream Htail Hfuel)
    as (e & w1 & Hloop & He & Ho & _).
  unfold handle_client, try_finally, try_except. rewrite Hloop, He.
  eexists. split; [reflexivity|].
  cbn [ret close outbox set_closed closed].
  split; [exact Ho|]. split; [|reflexivity].
  rewrite Ho, length_app. f_equal.
  clear. generalize (ticks w). induction rs as [|r rs IH]; intros t;
    cbn [replies length]; [reflexivity|]. rewrite IH. reflexivity.
Qed.

(** Two reads of the seconds register sent back to back in one segment,
    then the peer closes. *)
Lemma handle_client_answers_in_order_witness :
  exists w',
    handle_client 3
      (ticking_connection
         [(x00, [x01; x00; x00; x00; x06; x01; x03; x00; x05; x00; x01;
                 x00; x02; x00; x00; x00; x06; x01; x03; x00; x05; x00; x01])])
      = (Return tt, w') /\
    outbox w'
      = [] ++ replies (fun k =>
                         {| day := 15; month := 6; year := 2025;
                            hour := 13; minute := 45; second := 30 + Z.of_nat k |})
                0 [read_seconds x01; read_seconds x02] /\
    length (outbox w') = (0 + 2)%nat /\
    closed w' = true.
Proof.
  apply (handle_client_answers_in_order
           [read_seconds x01; read_seconds x02] 3
           (ticking_connection
              [(x00, [x01; x00; x00; x00; x06; x01; x03; x00; x05; x00; x01;
                      x00; x02; x00; x00; x00; x06; x01; x03; x00; x05; x00; x01])])
           []).
  - repeat constructor; vm_compute; discriminate.
  - reflexivity.
  - vm_compute. reflexivity.
  - cbn [length]. lia.
Defined.

(** The two responses: second 30 for transaction 1, second 31 for
    transaction 2. *)
Example two_reads_two_samples :
  outbox (snd (handle_client 3
    (ticking_connection
       [(x00, [x01; x00; x00; x00; x06; x01; x03; x00; x05; x00; x01;
               x00; x02; x00; x00; x00; x06; x01; x03; x00; x05; x00; x01])])))
  = [[x00; x01; x00; x00; x00; x05; x01; x03; x02; x00; x1e];
     [x00; x02; x00; x00; x00; x05; x01; x03; x02; x00; x1f]].
Proof. reflexivity. Qed.

(* ------------------------------------------------------------------ *)
(** ** A read, end to end *)

(** X20. A client that sends a valid read and decodes the registers of the
    response obtains the requested fields of the date and time the server's
    clock showed at that request, provided each field is an unsigned
    16-bit number, as the fields of a [datetime] are. *)
Theorem read_end_to_end (w : world)
    (t1 t0 p1 p0 l1 l0 u s1 s0 q1 q0 : byte) (rest : list byte) :
  stream w = [t1; t0; p1; p0; l1; l0; u] ++ [x03; s1; s0; q1; q0] ++ rest ->
  struct.be16 l1 l0 = 6 ->
  1 <= struct.be16 q1 q0 ->
  struct.be16 s1 s0 + struct.be16 q1 q0 <= 6 ->
  Forall (fun v => 0 <= v <= 65535) (registers_of (clock w (ticks w))) ->
  exists resp w',
    handle_request w = (Return tt, w') /\
    outbox w' = outbox w ++ [resp] /\
    decode_registers (skipn 9 resp)
    = firstn (Z.to_nat (struct.be16 q1 q0))
        (skipn (Z.to_nat (struct.be16 s1 s0)) (registers_of (clock w (ticks w)))).
Proof.
  intros Hstream Hlen Hqty Haddr Hrange.
  pose proof (be16_range s1 s0) as Hstart.
  destruct (handle_request_serves w t1 t0 p1 p0 l1 l0 u x03 [s1; s0; q1; q0] rest
              Hstream Hlen) as (w' & Hrun & _ & Hout & _).
  eexists _, w'. split; [exact Hrun|]. split; [exact Hout|].
  cbn [response_pdu]. change (byte_to_Z x03 =? 3) with true. cbv iota.
  replace ((struct.be16 q1 q0 <? 1) || (struct.be16 q1 q0 >? 125)) with false
    by (symmetry; apply orb_false_intro;
        [apply Z.ltb_ge; lia | rewrite Z.gtb_ltb; apply Z.ltb_ge; lia]).
  replace (struct.be16 s1 s0 + struct.be16 q1 q0 >? 6) with false
    by (symmetry; rewrite Z.gtb_ltb; apply Z.ltb_ge; lia).
  unfold frame. cbn [app skipn].
  rewrite decode_register_bytes, <- firstn_map, <- skipn_map.
  rewrite (map_mod_in_range _ Hrange). reflexivity.
Qed.

(** Hour, minute and second at 13:45:30. *)
Lemma read_end_to_end_witness :
  exists resp w',
    handle_request
      (connection [(x00, [x01; x00; x00; x00; x06; x01; x03; x00; x03; x00; x03])])
      = (Return tt, w') /\
    outbox w' = [] ++ [resp] /\
    decode_registers (skipn 9 resp)
    = firstn (Z.to_nat (struct.be16 x00 x03))
        (skipn (Z.to_nat (struct.be16 x00 x03)) (registers_of mock_now)).
Proof.
  apply (read_end_to_end
           (connection [(x00, [x01; x00; x00; x00; x06; x01; x03; x00; x03; x00; x03])])
           x00 x01 x00 x00 x00 x06 x01 x00 x03 x00 x03 []).
  - reflexivity.
  - reflexivity.
  - change (struct.be16 x00 x03) with 3. lia.
  - change (struct.be16 x00 x03) with 3. lia.
  - repeat constructor; cbn; lia.
Defined.
